(** * Climate assistant: the agent pipeline of [backend/agents.py]

    A shallow embedding of [ClimateAssistantAgents]: the six agents, the
    graph wired in [_create_graph], the routing function
    [_should_continue_after_self_check] and [process_query].

    Conventions of the embedding.
    - A Python [str] is the list of its code points ([pystr]); [len] is
      [length] and [s[:n]] is [firstn n s].
    - The language model, the document search and the Markdown renderer are
      collaborators outside the repository. They are Section variables; the
      first two are effectful, so they read and write an abstract [World]
      and may raise.
    - [str.lower] is a Section variable as well: the theorems hold for
      every lowering function, Python's Unicode one included.
    - The graph is run by the executor of the graph library. A node is
      given the state and what it returns is the state the next node is
      given. The routing function of a conditional edge is given a state
      built for it alone: the executor keeps the name of the edge it
      returns, and nothing of what it writes. *)

From Stdlib Require Import List Arith Lia Bool NArith String Ascii Decimal Floats.
From Stdlib Require Import DecimalNat.
Import ListNotations.

Set Implicit Arguments.

(** ** Python strings *)

Definition pystr := list N.

Module Utf8.

(** Decode the bytes of a literal of this file into code points. [k] is the
    number of continuation bytes still expected, [acc] the bits read. *)
Fixpoint decode_from (s : string) (acc : N) (k : nat) : pystr :=
  match s with
  | EmptyString => []
  | String c rest =>
      let b := N_of_ascii c in
      match k with
      | S k' =>
          let acc' := (acc * 64 + b mod 64)%N in
          match k' with
          | O => acc' :: decode_from rest 0%N O
          | S _ => decode_from rest acc' k'
          end
      | O =>
          if (b <? 128)%N then b :: decode_from rest 0%N O
          else if (b <? 224)%N then decode_from rest (b mod 32)%N 1
          else if (b <? 240)%N then decode_from rest (b mod 16)%N 2
          else decode_from rest (b mod 8)%N 3
      end
  end.

Definition decode (s : string) : pystr := decode_from s 0%N O.

End Utf8.

Definition py (s : string) : pystr := Utf8.decode s.
Arguments py s%_string.

(** [prefix in text], position 0. *)
Fixpoint startswith (prefix text : pystr) : bool :=
  match prefix, text with
  | [], _ => true
  | _ :: _, [] => false
  | a :: p, b :: t => (a =? b)%N && startswith p t
  end.

(** Python's [needle in hay] on strings. *)
Fixpoint contains (needle hay : pystr) : bool :=
  startswith needle hay ||
  match hay with
  | [] => false
  | _ :: rest => contains needle rest
  end.

(** [text.endswith(suffix)], as a proposition. *)
Definition endswith (text suffix : pystr) : Prop :=
  exists front, text = front ++ suffix.

(** [str(n)] for a non-negative int. *)
Fixpoint digits_of_uint (d : Decimal.uint) : pystr :=
  match d with
  | Nil => []
  | D0 r => 48%N :: digits_of_uint r
  | D1 r => 49%N :: digits_of_uint r
  | D2 r => 50%N :: digits_of_uint r
  | D3 r => 51%N :: digits_of_uint r
  | D4 r => 52%N :: digits_of_uint r
  | D5 r => 53%N :: digits_of_uint r
  | D6 r => 54%N :: digits_of_uint r
  | D7 r => 55%N :: digits_of_uint r
  | D8 r => 56%N :: digits_of_uint r
  | D9 r => 57%N :: digits_of_uint r
  end.

Definition str_of_nat (n : nat) : pystr := digits_of_uint (Nat.to_uint n).

(** A lowering function for the examples: [str.lower] on Basic Latin and
    the Latin-1 Supplement, every other code point kept. *)
Definition latin1_lower_cp (c : N) : N :=
  if ((65 <=? c) && (c <=? 90))%N then (c + 32)%N
  else if ((192 <=? c) && (c <=? 222) && negb (c =? 215))%N then (c + 32)%N
  else c.

Definition latin1_lower (s : pystr) : pystr := map latin1_lower_cp s.

(** ** Data model *)

(** [dict.get(key, default)] on a dictionary with string keys and values. *)
Definition metadata := list (pystr * pystr).

Fixpoint dict_get (d : metadata) (key default : pystr) : pystr :=
  match d with
  | [] => default
  | (k, v) :: rest =>
      if list_eq_dec N.eq_dec k key then v else dict_get rest key default
  end.

(** A relevance score is a Python float; the pipeline only copies it. *)
Definition score := float.

(** What the search returns: a langchain [Document]. *)
Record Document := mkDocument {
  page_content : pystr;
  doc_metadata : metadata
}.

(** An entry of [state["retrieved_docs"]]. *)
Record RetrievedDoc := mkRetrievedDoc {
  content : pystr;
  rd_metadata : metadata;
  rd_score : score
}.

(** An entry of [state["citations"]]. *)
Record Citation := mkCitation {
  cit_id : nat;
  cit_content : pystr;
  cit_source : pystr;
  cit_url : pystr;
  cit_score : score
}.

(** [class AgentState(TypedDict)]. A message is kept as its content. *)
Record AgentState := mkAgentState {
  messages : list pystr;
  query : pystr;
  retrieved_docs : list RetrievedDoc;
  answer : pystr;
  citations : list Citation;
  safety_check_passed : bool;
  self_check_passed : bool;
  final_response : pystr;
  iteration_count : nat
}.

Definition set_messages (v : list pystr) (s : AgentState) : AgentState :=
  mkAgentState v (query s) (retrieved_docs s) (answer s) (citations s)
    (safety_check_passed s) (self_check_passed s) (final_response s)
    (iteration_count s).

Definition set_retrieved_docs (v : list RetrievedDoc) (s : AgentState) : AgentState :=
  mkAgentState (messages s) (query s) v (answer s) (citations s)
    (safety_check_passed s) (self_check_passed s) (final_response s)
    (iteration_count s).

Definition set_answer (v : pystr) (s : AgentState) : AgentState :=
  mkAgentState (messages s) (query s) (retrieved_docs s) v (citations s)
    (safety_check_passed s) (self_check_passed s) (final_response s)
    (iteration_count s).

Definition set_citations (v : list Citation) (s : AgentState) : AgentState :=
  mkAgentState (messages s) (query s) (retrieved_docs s) (answer s) v
    (safety_check_passed s) (self_check_passed s) (final_response s)
    (iteration_count s).

Definition set_safety_check_passed (v : bool) (s : AgentState) : AgentState :=
  mkAgentState (messages s) (query s) (retrieved_docs s) (answer s)
    (citations s) v (self_check_passed s) (final_response s)
    (iteration_count s).

Definition set_self_check_passed (v : bool) (s : AgentState) : AgentState :=
  mkAgentState (messages s) (query s) (retrieved_docs s) (answer s)
    (citations s) (safety_check_passed s) v (final_response s)
    (iteration_count s).

Definition set_final_response (v : pystr) (s : AgentState) : AgentState :=
  mkAgentState (messages s) (query s) (retrieved_docs s) (answer s)
    (citations s) (safety_check_passed s) (self_check_passed s) v
    (iteration_count s).

Definition set_iteration_count (v : nat) (s : AgentState) : AgentState :=
  mkAgentState (messages s) (query s) (retrieved_docs s) (answer s)
    (citations s) (safety_check_passed s) (self_check_passed s)
    (final_response s) v.

(** The dictionary [process_query] returns. The [except] branch has no
    [response_html] key. *)
Record Envelope := mkEnvelope {
  response : pystr;
  response_html : option pystr;
  env_citations : list Citation;
  retrieved_docs_count : nat;
  success : bool
}.

(** ** Exceptions and effects *)

Inductive exn :=
| Exception (msg : pystr)
| GraphRecursionError.

Inductive result (A : Type) :=
| Ok (a : A)
| Raise (e : exn).

Arguments Ok {A} a.
Arguments Raise {A} e.

(** What each agent sends to the model: the fixed system message of the
    agent, named by the constructor, and the values its human message
    interpolates. *)
Inductive Prompt :=
| SupervisorPrompt (q : pystr)
| RetrieverPrompt (q : pystr) (previews : list pystr)
| AnswererPrompt (q : pystr) (context : pystr)
| SelfCheckPrompt (q : pystr) (ans : pystr) (n_citations : nat)
| SafetyPrompt (ans : pystr).

(** ** Constants *)

(** [config.SAFETY_DISCLAIMER]; the triple-quoted literal starts and ends
    with a newline and keeps the trailing space of its first line. *)
Definition SAFETY_DISCLAIMER : pystr :=
  Eval vm_compute in
    [10%N] ++
    py "⚠️ **AVISO IMPORTANTE**: Este assistente fornece informações baseadas em documentos científicos e oficiais sobre mudanças climáticas. "
    ++ [10%N] ++
    py "As informações são apenas para fins educacionais e informativos. Para decisões importantes relacionadas a políticas, "
    ++ [10%N] ++
    py "saúde ou segurança, consulte sempre especialistas qualificados e fontes oficiais atualizadas."
    ++ [10%N].

Definition NO_INFORMATION : pystr :=
  Eval vm_compute in
    py "Não foi possível encontrar informações relevantes nos documentos disponíveis.".

Definition APOLOGY : pystr :=
  Eval vm_compute in
    py "Desculpe, ocorreu um erro ao processar sua consulta. Tente novamente.".

Definition ELLIPSIS : pystr := Eval vm_compute in py "...".

(** The literal 3 of [_should_continue_after_self_check]. *)
Definition MAX_RETRIES : nat := 3.

(** Default [recursion_limit] of the graph executor: the number of node
    executions after which [invoke] raises. *)
Definition recursion_limit : nat := 25.

(** ** The agents *)

Section Pipeline.

(** The collaborators. *)
Variable World : Type.
Variable llm_invoke : Prompt -> World -> result pystr * World.
Variable search_with_scores :
  pystr -> nat -> World -> result (list (Document * score)) * World.
Variable markdown_convert : pystr -> result pystr.
Variable str_lower : pystr -> pystr.

(** Effectful code: a computation reads and writes the world and either
    returns or raises. *)
Definition M (A : Type) : Type := World -> result A * World.

Definition ret {A} (a : A) : M A := fun w => (Ok a, w).

Definition bind {A B} (c : M A) (k : A -> M B) : M B :=
  fun w =>
    match c w with
    | (Ok a, w') => k a w'
    | (Raise e, w') => (Raise e, w')
    end.

(** [try: c except Exception: h] *)
Definition try_except {A} (c : M A) (h : exn -> M A) : M A :=
  fun w =>
    match c w with
    | (Ok a, w') => (Ok a, w')
    | (Raise e, w') => h e w'
    end.

Notation "x <- c ;; k" := (bind c (fun x => k))
  (at level 61, c at next level, right associativity).

(** [supervisor_agent] *)
Definition out_of_domain (text : pystr) : bool :=
  contains (py "não está relacionada") (str_lower text) ||
  contains (py "não posso ajudar") (str_lower text).

Definition supervisor_agent (state : AgentState) : M AgentState :=
  resp <- llm_invoke (SupervisorPrompt (query state)) ;;
  if out_of_domain resp
  then ret (set_final_response resp state)
  else ret (set_messages [resp] state).

(** [retriever_agent]. The [try] block covers the search and the model
    call alike; when either raises, the only field written so far is
    [retrieved_docs], which the handler resets. *)
Definition to_retrieved (ds : Document * score) : RetrievedDoc :=
  mkRetrievedDoc (page_content (fst ds)) (doc_metadata (fst ds)) (snd ds).

Definition preview (doc : RetrievedDoc) : pystr :=
  firstn 500 (content doc) ++ ELLIPSIS.

Definition retriever_agent (state : AgentState) : M AgentState :=
  try_except
    (docs_with_scores <- search_with_scores (query state) 5 ;;
     let found := map to_retrieved docs_with_scores in
     let state1 := set_retrieved_docs found state in
     resp <- llm_invoke (RetrieverPrompt (query state) (map preview found)) ;;
     ret (set_messages (messages state1 ++ [resp]) state1))
    (fun _ => ret (set_retrieved_docs [] state)).

(** [answerer_agent]: the loop over [enumerate(retrieved_docs)], [i] being
    the index of the first document of [docs]. *)
Definition cite (i : nat) (doc : RetrievedDoc) : Citation :=
  mkCitation (i + 1)
    (firstn 200 (content doc) ++ ELLIPSIS)
    (dict_get (rd_metadata doc) (py "source") (py "Desconhecido"))
    (dict_get (rd_metadata doc) (py "url") [])
    (rd_score doc).

Definition context_entry (i : nat) (doc : RetrievedDoc) : pystr :=
  [10%N] ++ py "[Fonte " ++ str_of_nat (i + 1) ++ py "]: " ++ content doc
    ++ [10%N].

Fixpoint enumerate_docs (i : nat) (docs : list RetrievedDoc)
    (context : pystr) (cits : list Citation) : pystr * list Citation :=
  match docs with
  | [] => (context, cits)
  | doc :: rest =>
      enumerate_docs (S i) rest (context ++ context_entry i doc)
        (cits ++ [cite i doc])
  end.

Definition answerer_agent (state : AgentState) : M AgentState :=
  match retrieved_docs state with
  | [] => ret (set_citations [] (set_answer NO_INFORMATION state))
  | _ :: _ =>
      let '(context, cits) := enumerate_docs 0 (retrieved_docs state) [] [] in
      resp <- llm_invoke (AnswererPrompt (query state) context) ;;
      ret (set_citations cits (set_answer resp state))
  end.

(** [self_check_agent] *)
Definition parse_verdict (text : pystr) : bool :=
  let response_text := str_lower text in
  if contains (py "approved") response_text then true
  else if contains (py "needs_improvement") response_text
          || contains (py "rejected") response_text then false
  else true.

Definition self_check_agent (state : AgentState) : M AgentState :=
  resp <- llm_invoke
            (SelfCheckPrompt (query state) (answer state)
               (List.length (citations state))) ;;
  let state1 := set_self_check_passed (parse_verdict resp) state in
  ret (set_messages (messages state1 ++ [resp]) state1).

(** [safety_agent] *)
Definition safety_agent (state : AgentState) : M AgentState :=
  resp <- llm_invoke (SafetyPrompt (answer state)) ;;
  let final_answer := resp ++ [10%N; 10%N] ++ SAFETY_DISCLAIMER in
  ret (set_final_response final_answer (set_safety_check_passed true state)).

(** [finalizer_agent] *)
Definition citation_line (c : Citation) : pystr :=
  py "- [" ++ str_of_nat (cit_id c) ++ py "] " ++ cit_source c
    ++ (match cit_url c with
        | [] => []
        | _ :: _ => py " (" ++ cit_url c ++ py ")"
        end)
    ++ [10%N].

Definition citation_block (cits : list Citation) : pystr :=
  fold_left (fun text c => text ++ citation_line c) cits
    ([10%N; 10%N] ++ py "**Fontes consultadas:**" ++ [10%N]).

Definition finalizer_agent (state : AgentState) : M AgentState :=
  match citations state with
  | [] => ret (set_final_response (final_response state) state)
  | _ :: _ =>
      ret (set_final_response
             (final_response state ++ citation_block (citations state)) state)
  end.

(** ** The graph *)

Inductive Node :=
| Supervisor | Retriever | Answerer | SelfCheck | Safety | Finalizer.

Inductive Target :=
| Goto (n : Node)
| END.

Inductive Route := Continue | Retry | End_.

(** [_should_continue_after_self_check]: the edge it returns and the state
    it leaves; the retry branch writes the incremented counter. *)
Definition _should_continue_after_self_check (state : AgentState)
    : Route * AgentState :=
  if self_check_passed state then (Continue, state)
  else if iteration_count state <? 3
  then (Retry, set_iteration_count (iteration_count state + 1) state)
  else (End_, state).

Definition route_target (r : Route) : Target :=
  match r with
  | Continue => Goto Safety
  | Retry => Goto Retriever
  | End_ => END
  end.

(** The edges of [_create_graph], with the state the next node is given.
    After the self-check the routing function chooses the edge; the state
    it wrote to is dropped. *)
Definition successor (n : Node) (state : AgentState) : Target * AgentState :=
  match n with
  | Supervisor => (Goto Retriever, state)
  | Retriever => (Goto Answerer, state)
  | Answerer => (Goto SelfCheck, state)
  | SelfCheck =>
      (route_target (fst (_should_continue_after_self_check state)), state)
  | Safety => (Goto Finalizer, state)
  | Finalizer => (END, state)
  end.

Definition node_fn (n : Node) : AgentState -> M AgentState :=
  match n with
  | Supervisor => supervisor_agent
  | Retriever => retriever_agent
  | Answerer => answerer_agent
  | SelfCheck => self_check_agent
  | Safety => safety_agent
  | Finalizer => finalizer_agent
  end.

(** One entry of the execution log: a node that ran to completion and the
    retry counter the state held when its outgoing edge had been taken. *)
Definition Step : Type := Node * nat.

(** The executor: run [n], follow its edge, stop at [END]; raise when
    [fuel] node executions are used up with the run still going. The log
    survives an exception. *)
Fixpoint run (fuel : nat) (n : Node) (state : AgentState) (w : World)
    : result AgentState * list Step * World :=
  match fuel with
  | O => (Raise GraphRecursionError, [], w)
  | S fuel' =>
      match node_fn n state w with
      | (Raise e, w1) => (Raise e, [], w1)
      | (Ok state1, w1) =>
          let '(target, state2) := successor n state1 in
          match target with
          | END => (Ok state2, [(n, iteration_count state2)], w1)
          | Goto m =>
              let '(r, log, w2) := run fuel' m state2 w1 in
              (r, (n, iteration_count state2) :: log, w2)
          end
      end
  end.

(** The configurations a run goes through: each node entered, with the
    state and the world it is entered with. *)
Fixpoint visited (fuel : nat) (n : Node) (state : AgentState) (w : World)
    : list (Node * AgentState * World) :=
  match fuel with
  | O => []
  | S fuel' =>
      (n, state, w) ::
      match node_fn n state w with
      | (Raise _, _) => []
      | (Ok state1, w1) =>
          let '(target, state2) := successor n state1 in
          match target with
          | END => []
          | Goto m => visited fuel' m state2 w1
          end
      end
  end.

Definition initial_state (q : pystr) : AgentState :=
  mkAgentState [] q [] [] [] false false [] 0.

(** [self.graph.invoke(initial_state)] *)
Definition graph_invoke (q : pystr) (w : World)
    : result AgentState * list Step * World :=
  run recursion_limit Supervisor (initial_state q) w.

(** [_convert_markdown_to_html] *)
Definition _convert_markdown_to_html (text : pystr) : pystr :=
  match markdown_convert text with
  | Ok html => html
  | Raise _ => text
  end.

(** [process_query] *)
Definition process_query (q : pystr) (w : World) : Envelope * World :=
  match graph_invoke q w with
  | (Ok st, _, w') =>
      (mkEnvelope (final_response st)
         (Some (_convert_markdown_to_html (final_response st)))
         (citations st) (List.length (retrieved_docs st)) true, w')
  | (Raise _, _, w') => (mkEnvelope APOLOGY None [] 0 false, w')
  end.

(** Number of Quality-Gate evaluations in an execution log. *)
Definition gate_evaluations (log : list Step) : nat :=
  List.length (filter (fun s => match fst s with SelfCheck => true | _ => false end) log).

End Pipeline.

(** ** Specification-level vocabulary *)

(** The citations of [docs], the first of them having index [i]. *)
Fixpoint cite_all (i : nat) (docs : list RetrievedDoc) : list Citation :=
  match docs with
  | [] => []
  | doc :: rest => cite i doc :: cite_all (S i) rest
  end.





(** On entry to the gate and to every node after it, the citations are
    those of the retrieved documents the state holds. *)
Definition cited_in_order (n : Node) (st : AgentState) : Prop :=
  match n with
  | Supervisor | Retriever | Answerer => True
  | SelfCheck | Safety | Finalizer =>
      citations st = cite_all 0 (retrieved_docs st)
  end.

(** A state without context: nothing retrieved, the fixed message as the
    draft, no citations. *)
Definition no_context (st : AgentState) : Prop :=
  retrieved_docs st = [] /\ answer st = NO_INFORMATION /\ citations st = [].

(** The response is an annotation followed by the disclaimer. *)
Definition annotated_response (st : AgentState) : Prop :=
  exists annotation,
    final_response st = annotation ++ [10%N; 10%N] ++ SAFETY_DISCLAIMER.

(** What holds on entry to node [n] when the search never finds
    anything; [no_context_end] is what holds when the run ends. *)
Definition no_context_at (n : Node) (st : AgentState) : Prop :=
  match n with
  | Supervisor | Retriever => True
  | Answerer => retrieved_docs st = []
  | SelfCheck => no_context st
  | Safety => no_context st /\ self_check_passed st = true
  | Finalizer =>
      no_context st /\ self_check_passed st = true /\ annotated_response st
  end.

Definition no_context_end (st : AgentState) : Prop :=
  no_context st /\ (self_check_passed st = true -> annotated_response st).

(** What the three nodes of the cycle leave as it was. *)
Definition same_frame (st st1 : AgentState) : Prop :=
  final_response st1 = final_response st
  /\ iteration_count st1 = iteration_count st.

(** ** Scripted collaborators for the concrete runs

    The world is the number of calls made so far. The model answers each
    agent with a fixed text; the search returns a fixed result. *)
Module Stub.

Definition World : Type := nat.

Definition llm (sup ans verdict saf : pystr) (p : Prompt) (w : World)
    : result pystr * World :=
  (Ok match p with
      | SupervisorPrompt _ => sup
      | RetrieverPrompt _ _ => py "ok"
      | AnswererPrompt _ _ => ans
      | SelfCheckPrompt _ _ _ => verdict
      | SafetyPrompt _ => saf
      end, S w).

(** A model that is down. *)
Definition llm_down (p : Prompt) (w : World) : result pystr * World :=
  (Raise (Exception (py "connection refused")), S w).

Definition search (docs : list (Document * score)) (q : pystr) (k : nat)
    (w : World) : result (list (Document * score)) * World :=
  (Ok docs, S w).

Definition markdown (text : pystr) : result pystr := Ok text.

Definition doc_ipcc : Document * score :=
  (mkDocument (py "O aquecimento global é inequívoco.")
     [(py "source", py "IPCC_AR6")], 0.5%float).

Definition doc_nasa : Document * score :=
  (mkDocument (py "A temperatura média subiu 1,1 grau.")
     [(py "source", py "NASA_Report"); (py "url", py "https://nasa.gov")],
   0.25%float).

(** A document of exactly 200 characters. *)
Definition doc_long : RetrievedDoc :=
  mkRetrievedDoc (repeat 97%N 200) [] 0.5%float.

Definition relevant : pystr := Eval vm_compute in py "A consulta é relevante.".
Definition refusal : pystr :=
  Eval vm_compute in
    py "Desculpe, esta consulta Não Está Relacionada a mudanças climáticas.".
Definition draft : pystr := Eval vm_compute in py "O clima aquece [Fonte 1].".
Definition annotated : pystr := Eval vm_compute in py "Resposta revisada.".
Definition a_query : pystr := Eval vm_compute in py "O que diz o IPCC?".
Definition off_topic : pystr := Eval vm_compute in py "Quem ganhou o jogo?".

End Stub.

(** The models of the concrete runs. *)
Module Runs.
Import Stub.

(** A model whose verdict is always [verdict], for a query in the domain. *)
Definition judge (verdict : pystr) : Prompt -> World -> result pystr * World :=
  llm relevant draft verdict annotated.

Definition REJECTED : pystr := Eval vm_compute in py "REJECTED: sem base nas fontes.".
Definition NEEDS_IMPROVEMENT : pystr :=
  Eval vm_compute in py "NEEDS_IMPROVEMENT: faltam citações.".
Definition APPROVED : pystr := Eval vm_compute in py "APPROVED".
Definition UNCLEAR : pystr := Eval vm_compute in py "Talvez.".

(** A model that takes the query for out of the domain. *)
Definition refuser : Prompt -> World -> result pystr * World :=
  llm refusal draft APPROVED annotated.

(** A model that answers every agent but the retriever. *)
Definition deaf_to_retriever (p : Prompt) (w : World)
    : result pystr * World :=
  match p with
  | RetrieverPrompt _ _ => llm_down p w
  | _ => judge APPROVED p w
  end.

(** A model that answers every agent but the safety agent. *)
Definition deaf_to_safety (p : Prompt) (w : World) : result pystr * World :=
  match p with
  | SafetyPrompt _ => llm_down p w
  | _ => judge APPROVED p w
  end.

End Runs.

(** ** More vocabulary for the runs *)

(** The context the answerer builds from [docs], the first of them having
    index [i]. *)
Fixpoint context_all (i : nat) (docs : list RetrievedDoc) : pystr :=
  match docs with
  | [] => []
  | doc :: rest => context_entry i doc ++ context_all (S i) rest
  end.

(** First line of the block the finalizer appends. *)
Definition SOURCES_HEADER : pystr :=
  Eval vm_compute in [10%N; 10%N] ++ py "**Fontes consultadas:**" ++ [10%N].

(** What the finalizer appends for the citations [cits]. *)
Definition sources_block (cits : list Citation) : pystr :=
  match cits with
  | [] => []
  | _ :: _ => SOURCES_HEADER ++ List.concat (map citation_line cits)
  end.

(** ** The document processor ([ingest/document_processor.py]) *)

Module DocumentProcessor.
Section Methods.

Variable World : Type.

(** The vector store is a collaborator; [similarity_search_with_score] is
    its only method the pipeline reaches. *)
Variable VectorStore : Type.
Variable similarity_search_with_score :
  VectorStore -> pystr -> nat -> World
  -> result (list (Document * score)) * World.

(** [self.vector_store] is [None] until a store is created or loaded. *)
Record t := mk { vector_store : option VectorStore }.

Definition NOT_LOADED : pystr := Eval vm_compute in py "Vector store not loaded".

(** [search_with_scores] *)
Definition search_with_scores (self : t) (q : pystr) (k : nat)
    : M World (list (Document * score)) :=
  match vector_store self with
  | None => fun w => (Raise (Exception NOT_LOADED), w)
  | Some store => similarity_search_with_score store q k
  end.

End Methods.
End DocumentProcessor.

(** ** The HTTP layer ([backend/app.py]) *)

(** A chat message of the request: a dictionary read with
    [message.get('role')] and [message.get('content', '')]. *)
Record ChatMessage := mkChatMessage {
  role : option pystr;
  msg_content : option pystr
}.

(** The JSON object of a [/get_response] request, as far as the handler
    reads it: the value under ['messages'], if the key is there. *)
Record ChatPayload := mkChatPayload {
  payload_messages : option (list ChatMessage)
}.

(** The JSON object of a [/search] request: the value under ['query']. *)
Record SearchPayload := mkSearchPayload {
  payload_query : option pystr
}.

(** The ["error"] entry of a body: a literal, or [str(e)]. *)
Inductive ErrorText :=
| ErrorLiteral (text : pystr)
| ErrorOf (e : exn).

(** The JSON bodies the two handlers return. *)
Inductive Body :=
| ErrorBody (response_text : pystr) (error : ErrorText)
| AnswerBody (response_text response_html_text : pystr)
    (citations_count docs_count : nat) (shown : list Citation)
| ErrorOnly (error : ErrorText)
| SearchBody (q : pystr) (results : list RetrievedDoc) (count : nat).

Record HttpResponse := mkHttpResponse {
  status : nat;
  body : Body
}.

Definition USER : pystr := Eval vm_compute in py "user".
Definition INVALID_FORMAT : pystr :=
  Eval vm_compute in
    py "Erro: Formato de dados inválido. Envie uma lista de mensagens.".
Definition NO_QUESTION : pystr :=
  Eval vm_compute in
    py "Não foi possível identificar sua pergunta. Por favor, tente novamente.".
Definition NOT_INITIALIZED : pystr :=
  Eval vm_compute in
    py "Sistema ainda não foi inicializado. Aguarde alguns momentos e tente novamente.".
Definition INTERNAL_ERROR : pystr :=
  Eval vm_compute in
    py "Desculpe, ocorreu um erro interno. Tente novamente em alguns momentos.".

(** [None.get(...)]: what CPython raises when the body of a [/search]
    request is missing. *)
Definition NONE_HAS_NO_GET : exn :=
  Exception (py "'NoneType' object has no attribute 'get'").

Definition is_user (m : ChatMessage) : bool :=
  match role m with
  | Some r => if list_eq_dec N.eq_dec r USER then true else false
  | None => false
  end.

(** The loop of [get_response] over the messages it is given, already
    reversed: stop at the first one whose role is ['user']. *)
Fixpoint first_user_message (ms : list ChatMessage) : option pystr :=
  match ms with
  | [] => None
  | m :: rest =>
      if is_user m
      then Some (match msg_content m with Some c => c | None => [] end)
      else first_user_message rest
  end.

Definition last_user_message (ms : list ChatMessage) : option pystr :=
  first_user_message (List.rev ms).

Section Handlers.

Variable World : Type.
Variable llm_invoke : Prompt -> World -> result pystr * World.
Variable search_with_scores :
  pystr -> nat -> World -> result (list (Document * score)) * World.
Variable markdown_convert : pystr -> result pystr.
Variable str_lower : pystr -> pystr.

(** [get_response]. [data] is what [request.get_json()] gave, or the
    exception it raised; [climate_agents] tells whether the global of that
    name is set. *)
Definition get_response (data : result (option ChatPayload))
    (climate_agents : bool) (w : World) : HttpResponse * World :=
  match data with
  | Raise e => (mkHttpResponse 500 (ErrorBody INTERNAL_ERROR (ErrorOf e)), w)
  | Ok None =>
      (mkHttpResponse 400
         (ErrorBody INVALID_FORMAT (ErrorLiteral (py "Invalid data format"))), w)
  | Ok (Some payload) =>
      match payload_messages payload with
      | None =>
          (mkHttpResponse 400
             (ErrorBody INVALID_FORMAT
                (ErrorLiteral (py "Invalid data format"))), w)
      | Some msgs =>
          match last_user_message msgs with
          | None | Some [] =>
              (mkHttpResponse 400
                 (ErrorBody NO_QUESTION
                    (ErrorLiteral (py "No user message found"))), w)
          | Some user_message =>
              if negb climate_agents
              then
                (mkHttpResponse 503
                   (ErrorBody NOT_INITIALIZED
                      (ErrorLiteral (py "System not initialized"))), w)
              else
                let '(res, w') :=
                  process_query llm_invoke search_with_scores
                    markdown_convert str_lower user_message w in
                if success res
                then
                  (mkHttpResponse 200
                     (AnswerBody (response res)
                        (match response_html res with
                         | Some html => html
                         | None => response res
                         end)
                        (List.length (env_citations res))
                        (retrieved_docs_count res)
                        (firstn 3 (env_citations res))), w')
                else
                  (mkHttpResponse 500
                     (ErrorBody (response res)
                        (ErrorLiteral (py "Processing failed"))), w')
          end
      end
  end.

(** An entry of the results of [/search]. *)
Definition search_result (ds : Document * score) : RetrievedDoc :=
  mkRetrievedDoc (firstn 500 (page_content (fst ds)) ++ ELLIPSIS)
    (doc_metadata (fst ds)) (snd ds).

(** [search_documents], the handler of [/search]. [document_processor] is
    the global of that name: unset, or a processor and its search. *)
Definition search_documents (data : result (option SearchPayload))
    (document_processor : option (pystr -> nat -> M World (list (Document * score))))
    (w : World) : HttpResponse * World :=
  match data with
  | Raise e => (mkHttpResponse 500 (ErrorOnly (ErrorOf e)), w)
  | Ok None => (mkHttpResponse 500 (ErrorOnly (ErrorOf NONE_HAS_NO_GET)), w)
  | Ok (Some payload) =>
      match payload_query payload with
      | None | Some [] =>
          (mkHttpResponse 400
             (ErrorOnly (ErrorLiteral (py "Query parameter required"))), w)
      | Some q =>
          match document_processor with
          | None =>
              (mkHttpResponse 503
                 (ErrorOnly
                    (ErrorLiteral (py "Document processor not initialized"))),
               w)
          | Some search =>
              match search q 5 w with
              | (Raise e, w') => (mkHttpResponse 500 (ErrorOnly (ErrorOf e)), w')
              | (Ok docs_with_scores, w') =>
                  let results := map search_result docs_with_scores in
                  (mkHttpResponse 200
                     (SearchBody q results (List.length results)), w')
              end
          end
      end
  end.

End Handlers.

(** * Properties *)

(** ** Strings and citations *)

Lemma endswith_app (front suffix : pystr) : endswith (front ++ suffix) suffix.
Proof. now exists front. Qed.

Lemma excerpt_length (s : pystr) :
  List.length (firstn 200 s ++ ELLIPSIS) = Nat.min 200 (List.length s) + 3.
Proof.
  rewrite length_app, length_firstn. reflexivity.
Qed.

Lemma enumerate_docs_citations (docs : list RetrievedDoc) :
  forall i context cits,
    snd (enumerate_docs i docs context cits) = cits ++ cite_all i docs.
Proof.
  induction docs as [|doc rest IH]; intros i context cits; simpl.
  - now rewrite app_nil_r.
  - rewrite IH, <- app_assoc. reflexivity.
Qed.

Lemma cite_all_ids (docs : list RetrievedDoc) :
  forall i, map cit_id (cite_all i docs) = seq (S i) (List.length docs).
Proof.
  induction docs as [|doc rest IH]; intro i; simpl.
  - reflexivity.
  - rewrite IH. f_equal. apply Nat.add_1_r.
Qed.

Lemma cite_all_length (docs : list RetrievedDoc) :
  forall i, List.length (cite_all i docs) = List.length docs.
Proof.
  induction docs as [|doc rest IH]; intro i; simpl; [|rewrite IH]; reflexivity.
Qed.

Lemma cite_all_nth (docs : list RetrievedDoc) :
  forall i k doc,
    nth_error docs k = Some doc ->
    nth_error (cite_all i docs) k = Some (cite (i + k) doc).
Proof.
  induction docs as [|d rest IH]; intros i k doc Hk.
  - destruct k; discriminate.
  - destruct k as [|k]; simpl in *.
    + inversion Hk; subst. now rewrite Nat.add_0_r.
    + rewrite (IH (S i) k doc Hk). do 2 f_equal. lia.
Qed.

Lemma cite_all_excerpts (docs : list RetrievedDoc) :
  forall i,
    Forall (fun c => exists doc, In doc docs /\
                cit_content c = firstn 200 (content doc) ++ ELLIPSIS)
      (cite_all i docs).
Proof.
  induction docs as [|d rest IH]; intro i; simpl; constructor.
  - exists d. split; [now left | reflexivity].
  - eapply Forall_impl; [|apply IH].
    intros c (doc & Hin & Hc). exists doc. split; [now right | exact Hc].
Qed.

Section Facts.

Variable World : Type.
Variable llm_invoke : Prompt -> World -> result pystr * World.
Variable search_with_scores :
  pystr -> nat -> World -> result (list (Document * score)) * World.
Variable markdown_convert : pystr -> result pystr.
Variable str_lower : pystr -> pystr.

Local Abbreviation supervisor := (supervisor_agent llm_invoke str_lower).
Local Abbreviation retriever := (retriever_agent llm_invoke search_with_scores).
Local Abbreviation answerer := (answerer_agent llm_invoke).
Local Abbreviation self_check := (self_check_agent llm_invoke str_lower).
Local Abbreviation safety := (safety_agent llm_invoke).
Local Abbreviation node := (node_fn llm_invoke search_with_scores str_lower).
Local Abbreviation exec := (run llm_invoke search_with_scores str_lower).
Local Abbreviation invoke := (graph_invoke llm_invoke search_with_scores str_lower).
Local Abbreviation process :=
  (process_query llm_invoke search_with_scores markdown_convert str_lower).

(** Case analysis on everything an agent's outcome depends on. *)
Ltac split_agent :=
  repeat match goal with
    | |- context [llm_invoke ?p ?w] =>
        destruct (llm_invoke p w) as [[?|?] ?] eqn:?
    | |- context [search_with_scores ?q ?k ?w] =>
        destruct (search_with_scores q k w) as [[?|?] ?] eqn:?
    | |- context [out_of_domain ?f ?t] => destruct (out_of_domain f t) eqn:?
    | |- context [match retrieved_docs ?s with _ => _ end] =>
        destruct (retrieved_docs s) eqn:?
    | |- context [match citations ?s with _ => _ end] =>
        destruct (citations s) eqn:?
    | |- context [enumerate_docs ?i ?d ?c ?k] =>
        destruct (enumerate_docs i d c k) eqn:?
    end.

Ltac open_agent :=
  unfold node_fn, supervisor_agent, retriever_agent, answerer_agent,
    self_check_agent, safety_agent, finalizer_agent, bind, ret, try_except.

(** ** What an agent leaves untouched *)

Lemma node_keeps_counter n st w st1 w1 :
  node n st w = (Ok st1, w1) -> iteration_count st1 = iteration_count st.
Proof.
  destruct n; open_agent; split_agent; intro H; inversion H; reflexivity.
Qed.


(** ** The executor *)

(** A property established on entry to each node and kept by every node
    and edge holds of the state the run ends with. *)
Lemma run_invariant (Inv : Node -> AgentState -> Prop)
    (Final : AgentState -> Prop) :
  (forall n st w st1 w1,
      Inv n st -> node n st w = (Ok st1, w1) ->
      match successor n st1 with
      | (Goto m, st2) => Inv m st2
      | (END, st2) => Final st2
      end) ->
  forall fuel n st w stf log w',
    Inv n st -> exec fuel n st w = (Ok stf, log, w') -> Final stf.
Proof.
  intros Hstep fuel.
  induction fuel as [|fuel IH]; intros n st w stf log w' Hinv Hrun.
  - discriminate.
  - simpl in Hrun.
    destruct (node n st w) as [[st1|e] w1] eqn:Hnode; [|discriminate].
    specialize (Hstep n st w st1 w1 Hinv Hnode).
    destruct (successor n st1) as [[m|] st2].
    + destruct (exec fuel m st2 w1) as [[r lg] w2] eqn:Hrest.
      inversion Hrun; subst. exact (IH m st2 w1 stf lg w' Hstep Hrest).
    + inversion Hrun; subst. exact Hstep.
Qed.

(** The state the next node is given is the state the node returned. *)
Lemma successor_keeps_state n st : snd (successor n st) = st.
Proof. destruct n; reflexivity. Qed.

(** The three edges out of the self-check. *)
Lemma gate_edge st :
  (successor SelfCheck st = (Goto Safety, st)
   /\ self_check_passed st = true)
  \/ (successor SelfCheck st = (Goto Retriever, st)
      /\ self_check_passed st = false /\ iteration_count st < 3)
  \/ (successor SelfCheck st = (END, st)
      /\ self_check_passed st = false /\ 3 <= iteration_count st).
Proof.
  cbn [successor]. unfold _should_continue_after_self_check.
  destruct (self_check_passed st); [left; split; reflexivity|].
  destruct (iteration_count st <? 3) eqn:Hlt.
  - apply Nat.ltb_lt in Hlt. right; left. cbn. repeat split. exact Hlt.
  - apply Nat.ltb_ge in Hlt. right; right. cbn. repeat split. exact Hlt.
Qed.

(** The executor, one node at a time. *)
Lemma run_step fuel n st w :
  exec (S fuel) n st w =
  match node n st w with
  | (Raise e, w1) => (Raise e, [], w1)
  | (Ok state1, w1) =>
      match successor n state1 with
      | (END, state2) => (Ok state2, [(n, iteration_count state2)], w1)
      | (Goto m, state2) =>
          let '(r, log, w2) := exec fuel m state2 w1 in
          (r, (n, iteration_count state2) :: log, w2)
      end
  end.
Proof.
  simpl. destruct (node n st w) as [[st1|e] w1]; [|reflexivity].
  destruct (successor n st1) as [[m|] st2]; reflexivity.
Qed.

(** No node and no edge writes the retry counter: it is the same at every
    step of a run and in the state the run ends with. *)
Lemma counter_constant fuel :
  forall n st w,
    Forall (fun s : Step => snd s = iteration_count st)
      (snd (fst (exec fuel n st w)))
    /\ match fst (fst (exec fuel n st w)) with
       | Ok stf => iteration_count stf = iteration_count st
       | Raise _ => True
       end.
Proof.
  induction fuel as [|fuel IH]; intros n st w.
  - cbn. split; [constructor | exact I].
  - rewrite run_step.
    destruct (node n st w) as [[st1|e] w1] eqn:Hnode;
      [|cbn; split; [constructor | exact I]].
    pose proof (node_keeps_counter _ _ _ Hnode) as Hc.
    pose proof (successor_keeps_state n st1) as Hs.
    destruct (successor n st1) as [[m|] st2]; cbn in Hs; subst st2.
    + destruct (IH m st1 w1) as [IHlog IHend].
      destruct (exec fuel m st1 w1) as [[r lg] w2]. cbn [fst snd] in *.
      rewrite Hc in *. split; [constructor; [reflexivity | exact IHlog]|].
      exact IHend.
    + cbn [fst snd]. split; [|exact Hc].
      constructor; [exact Hc | constructor].
Qed.

(** A node that raises ends the run with its exception: no node and no
    edge catches what another node raised. *)
Lemma visited_raise fuel :
  forall n st w n' st' w0 e w1,
    In (n', st', w0) (visited llm_invoke search_with_scores str_lower
                        fuel n st w) ->
    node n' st' w0 = (Raise e, w1) ->
    exists log, exec fuel n st w = (Raise e, log, w1).
Proof.
  induction fuel as [|fuel IH]; intros n st w n' st' w0 e w1 Hin Hraise.
  - destruct Hin.
  - rewrite run_step. cbn [visited] in Hin. destruct Hin as [Heq | Hin].
    + inversion Heq; subst. rewrite Hraise. now exists [].
    + destruct (node n st w) as [[st1|e1] w2]; [|destruct Hin].
      destruct (successor n st1) as [[m|] st2]; [|destruct Hin].
      destruct (IH _ _ _ _ _ _ _ _ Hin Hraise) as [log Hrun].
      rewrite Hrun. eexists. reflexivity.
Qed.

(** ** Answer-Composer *)

Lemma answerer_citations st w st1 w1 :
  answerer st w = (Ok st1, w1) ->
  citations st1 = cite_all 0 (retrieved_docs st1)
  /\ retrieved_docs st1 = retrieved_docs st.
Proof.
  open_agent.
  destruct (retrieved_docs st) as [|doc rest] eqn:Hdocs.
  - intro H; inversion H; subst; cbn. now rewrite Hdocs.
  - pose proof (enumerate_docs_citations (doc :: rest) 0 [] []) as Hcits.
    destruct (enumerate_docs 0 (doc :: rest) [] []) as [context cits].
    split_agent; intro H; inversion H; subst; cbn.
    now rewrite Hdocs.
Qed.

Lemma cited_in_order_kept n st w st1 w1 :
  cited_in_order n st -> node n st w = (Ok st1, w1) ->
  match successor n st1 with
  | (Goto m, st2) => cited_in_order m st2
  | (END, st2) => citations st2 = cite_all 0 (retrieved_docs st2)
  end.
Proof.
  intros Hinv Hnode. destruct n; cbn [successor cited_in_order]; trivial.
  - apply answerer_citations in Hnode. tauto.
  - revert Hnode. open_agent.
    destruct (llm_invoke _ w) as [[text|e] w2]; intro H; inversion H; subst.
    unfold _should_continue_after_self_check; cbn.
    destruct (parse_verdict str_lower text); cbn; [exact Hinv|].
    match goal with |- context [if ?b then _ else _] => destruct b end;
      cbn; [trivial | exact Hinv].
  - revert Hnode. open_agent. split_agent; intro H; inversion H; subst.
    exact Hinv.
  - revert Hnode. open_agent. split_agent; intro H; inversion H; subst;
      cbn; cbn in Hinv; congruence.
Qed.

Lemma run_cited_in_order q w st log w' :
  invoke q w = (Ok st, log, w') ->
  citations st = cite_all 0 (retrieved_docs st).
Proof.
  unfold graph_invoke.
  apply (run_invariant cited_in_order
           (fun s => citations s = cite_all 0 (retrieved_docs s))
           cited_in_order_kept).
  exact I.
Qed.

Lemma process_citations q w :
  exists docs,
    env_citations (fst (process q w)) = cite_all 0 docs
    /\ retrieved_docs_count (fst (process q w)) = List.length docs
    /\ match fst (fst (invoke q w)) with
       | Ok st => docs = retrieved_docs st
       | Raise _ => docs = []
       end.
Proof.
  unfold process_query.
  destruct (invoke q w) as [[[st|e] log] w'] eqn:Hrun; cbn.
  - exists (retrieved_docs st).
    rewrite (run_cited_in_order _ _ Hrun). repeat split.
  - exists []. repeat split.
Qed.





(** C7, amended. An excerpt is the first 200 characters of the document
    followed by the three characters of [ELLIPSIS]: its length is
    [min 200 (len content) + 3], at most 203, and this holds of every
    citation [process_query] returns. *)
Theorem excerpt_is_prefix_plus_ellipsis q w :
  (forall i doc,
      cit_content (cite i doc) = firstn 200 (content doc) ++ ELLIPSIS
      /\ List.length (cit_content (cite i doc))
         = Nat.min 200 (List.length (content doc)) + 3)
  /\ Forall (fun c => List.length (cit_content c) <= 203)
       (env_citations (fst (process q w))).
Proof.
  split.
  - intros i doc. split; [reflexivity | apply excerpt_length].
  - destruct (process_citations q w) as (docs & Hc & _).
    rewrite Hc. eapply Forall_impl; [|apply cite_all_excerpts].
    intros c (doc & _ & Hdoc). rewrite Hdoc, excerpt_length. lia.
Qed.

(** ** Quality-Gate *)



(** ** Policy-Annotator *)

Lemma safety_outcome st w text w1 :
  llm_invoke (SafetyPrompt (answer st)) w = (Ok text, w1) ->
  safety st w
  = (Ok (set_final_response (text ++ [10%N; 10%N] ++ SAFETY_DISCLAIMER)
           (set_safety_check_passed true st)), w1).
Proof.
  intro Hllm. unfold safety_agent, bind, ret. now rewrite Hllm.
Qed.

Lemma safety_failure st w e w1 :
  llm_invoke (SafetyPrompt (answer st)) w = (Raise e, w1) ->
  safety st w = (Raise e, w1).
Proof.
  intro Hllm. unfold safety_agent, bind, ret. now rewrite Hllm.
Qed.

(** C8, amended. Whatever draft the state holds, the empty one included:
    when the model returns a text for it, the response the safety agent
    stores is that text, a blank line and [SAFETY_DISCLAIMER], so it ends
    with the disclaimer whatever the text is; when the model call raises,
    the safety agent raises the same exception and stores nothing. *)
Theorem safety_appends_disclaimer_or_raises st w :
  match llm_invoke (SafetyPrompt (answer st)) w with
  | (Ok text, w1) =>
      exists st1,
        safety st w = (Ok st1, w1)
        /\ final_response st1 = text ++ [10%N; 10%N] ++ SAFETY_DISCLAIMER
        /\ endswith (final_response st1) SAFETY_DISCLAIMER
  | (Raise e, w1) => safety st w = (Raise e, w1)
  end.
Proof.
  destruct (llm_invoke (SafetyPrompt (answer st)) w) as [[text|e] w1]
    eqn:Hllm.
  - eexists. split; [exact (safety_outcome st Hllm)|].
    split; [reflexivity|]. cbn [final_response set_final_response].
    rewrite app_assoc. apply endswith_app.
  - exact (safety_failure st Hllm).
Qed.

(** C10, amended. The safety agent tests nothing and its only outgoing
    edge leads to the finalizer. When its model call returns, whatever
    the text, it sets [safety_check_passed] to [True], changes no other
    field than [final_response], and the run goes on with the finalizer;
    when the call raises, the run ends there with that exception, the
    flag unset and the finalizer not run. *)
Theorem safety_stops_a_run_only_by_raising st w :
  (forall s, successor Safety s = (Goto Finalizer, s))
  /\ match llm_invoke (SafetyPrompt (answer st)) w with
     | (Ok text, w1) =>
         exists st1,
           safety st w = (Ok st1, w1)
           /\ safety_check_passed st1 = true
           /\ st1 = set_final_response (final_response st1)
                      (set_safety_check_passed true st)
           /\ forall fuel,
                exec (S fuel) Safety st w
                = let '(r, log, w2) := exec fuel Finalizer st1 w1 in
                  (r, (Safety, iteration_count st1) :: log, w2)
     | (Raise e, w1) =>
         safety st w = (Raise e, w1)
         /\ forall fuel, exec (S fuel) Safety st w = (Raise e, [], w1)
     end.
Proof.
  split; [reflexivity|].
  destruct (llm_invoke (SafetyPrompt (answer st)) w) as [[text|e] w1]
    eqn:Hllm.
  - eexists. split; [exact (safety_outcome st Hllm)|].
    split; [reflexivity|]. split; [reflexivity|].
    intro fuel. rewrite run_step. cbn [node_fn].
    rewrite (safety_outcome st Hllm). reflexivity.
  - split; [exact (safety_failure st Hllm)|].
    intro fuel. rewrite run_step. cbn [node_fn].
    rewrite (safety_failure st Hllm). reflexivity.
Qed.

(** ** The entry point *)

(** C9. [process_query] always returns an envelope. When the run of the
    graph raised, it is the fixed one: the apology, no citations, no
    documents, [success = False]; when the run completed, it carries the
    final response and the citations with [success = True]. And whenever
    a node of the run raises, at whatever point of the run, the run
    raises with it and the caller gets the fixed envelope. *)
Theorem process_query_never_raises q w :
  let env := fst (process q w) in
  match fst (fst (invoke q w)) with
  | Ok st =>
      success env = true
      /\ response env = final_response st
      /\ env_citations env = citations st
      /\ retrieved_docs_count env = List.length (retrieved_docs st)
  | Raise _ => env = mkEnvelope APOLOGY None [] 0 false
  end
  /\ (success env = false <-> exists e, fst (fst (invoke q w)) = Raise e)
  /\ (forall n st w0 e w1,
        In (n, st, w0)
          (visited llm_invoke search_with_scores str_lower recursion_limit
             Supervisor (initial_state q) w) ->
        node n st w0 = (Raise e, w1) ->
        process q w = (mkEnvelope APOLOGY None [] 0 false, w1)).
Proof.
  cbv zeta. unfold process_query.
  split; [|split].
  - destruct (invoke q w) as [[[st|e] log] w']; cbn; repeat split.
  - destruct (invoke q w) as [[[st|e] log] w']; cbn; split.
    + discriminate.
    + intros [e He]. discriminate.
    + intros _. now exists e.
    + reflexivity.
  - intros n st w0 e w1 Hin Hraise. unfold graph_invoke.
    destruct (visited_raise _ _ _ _ _ _ _ Hin Hraise) as [log Hrun].
    now rewrite Hrun.
Qed.

(** ** Runs without context *)

Section NoContext.

(** The search finds nothing, or fails. *)
Hypothesis search_finds_nothing :
  forall q k w,
    match fst (search_with_scores q k w) with
    | Ok found => found = []
    | Raise _ => True
    end.

Lemma retriever_no_context st w st1 w1 :
  retriever st w = (Ok st1, w1) -> retrieved_docs st1 = [].
Proof.
  open_agent. pose proof (search_finds_nothing (query st) 5 w) as Hs.
  destruct (search_with_scores (query st) 5 w) as [[found|e] w2];
    cbn in Hs; subst.
  - split_agent; intro H; inversion H; reflexivity.
  - intro H; inversion H; reflexivity.
Qed.

Lemma answerer_short_circuit st w :
  retrieved_docs st = [] ->
  answerer st w = (Ok (set_citations [] (set_answer NO_INFORMATION st)), w).
Proof.
  intro Hdocs. unfold answerer_agent. now rewrite Hdocs.
Qed.

Lemma no_context_kept n st w st1 w1 :
  no_context_at n st -> node n st w = (Ok st1, w1) ->
  match successor n st1 with
  | (Goto m, st2) => no_context_at m st2
  | (END, st2) => no_context_end st2
  end.
Proof.
  intros Hinv Hnode.
  destruct n; cbn [successor no_context_at node_fn] in *; trivial.
  - eapply retriever_no_context; exact Hnode.
  - rewrite answerer_short_circuit in Hnode by exact Hinv.
    inversion Hnode; subst. now repeat split.
  - revert Hnode. open_agent.
    destruct (llm_invoke _ w) as [[text|e] w2]; intro H; inversion H; subst.
    unfold _should_continue_after_self_check; cbn.
    destruct (parse_verdict str_lower text); cbn; [now split|].
    match goal with |- context [if ?b then _ else _] => destruct b end;
      cbn; [trivial|]. split; [exact Hinv | discriminate].
  - revert Hnode. open_agent.
    destruct (llm_invoke _ w) as [[text|e] w2]; intro H; inversion H; subst.
    destruct Hinv as [Hno Hpass]. repeat split; try apply Hno; trivial.
    now exists text.
  - revert Hnode. open_agent.
    destruct Hinv as [(Hd & Ha & Hc) [Hpass Hann]]. rewrite Hc.
    intro H; inversion H; subst. split; [now repeat split|].
    intros _. exact Hann.
Qed.

(** C5, amended. When the search finds nothing or fails, the answerer
    returns at once, without calling the model, with the fixed message as
    the draft and no citations; [process_query] returns no citations and a
    document count of 0; a run that completes holds the fixed message as
    its draft, and when the gate approved it the response is the safety
    agent's annotation followed by a blank line and the disclaimer. *)
Theorem empty_retrieval_short_circuits q w :
  let env := fst (process q w) in
  (forall st w0, retrieved_docs st = [] ->
     answerer st w0
     = (Ok (set_citations [] (set_answer NO_INFORMATION st)), w0))
  /\ env_citations env = []
  /\ retrieved_docs_count env = 0
  /\ match fst (fst (invoke q w)) with
     | Ok st =>
         answer st = NO_INFORMATION
         /\ (self_check_passed st = true ->
             exists annotation,
               response env
               = annotation ++ [10%N; 10%N] ++ SAFETY_DISCLAIMER)
     | Raise _ => True
     end.
Proof.
  cbv zeta. split; [exact answerer_short_circuit|].
  unfold process_query.
  destruct (invoke q w) as [[[st|e] log] w'] eqn:Hrun; cbn;
    [|now repeat split].
  assert (Hend : no_context_end st).
  { unfold graph_invoke in Hrun.
    eapply (run_invariant no_context_at no_context_end no_context_kept);
      [|exact Hrun]. exact I. }
  destruct Hend as [(Hd & Ha & Hc) Hann].
  rewrite Hd, Hc. repeat split; assumption.
Qed.

End NoContext.

(** ** Runs the gate never approves *)

Section AlwaysRejected.

(** The model answers the supervisor and the answerer, and every verdict
    it gives parses as a rejection. *)
Hypothesis supervisor_answered :
  forall q w, exists text w1, llm_invoke (SupervisorPrompt q) w = (Ok text, w1).
Hypothesis answerer_answered :
  forall q c w, exists text w1, llm_invoke (AnswererPrompt q c) w = (Ok text, w1).
Hypothesis gate_rejects :
  forall q a n w, exists text w1,
    llm_invoke (SelfCheckPrompt q a n) w = (Ok text, w1)
    /\ parse_verdict str_lower text = false.

Lemma retriever_returns st w :
  exists st1 w1, retriever st w = (Ok st1, w1) /\ same_frame st st1.
Proof.
  open_agent. split_agent; do 2 eexists; (split; [reflexivity | now split]).
Qed.

Lemma answerer_returns st w :
  exists st1 w1, answerer st w = (Ok st1, w1) /\ same_frame st st1.
Proof.
  open_agent. destruct (retrieved_docs st) as [|doc rest].
  - do 2 eexists. split; [reflexivity | now split].
  - destruct (enumerate_docs 0 (doc :: rest) [] []) as [context cits].
    destruct (answerer_answered (query st) context w) as (text & w1 & Hllm).
    rewrite Hllm. do 2 eexists. split; [reflexivity | now split].
Qed.

Lemma self_check_rejects st w :
  exists st1 w1,
    self_check st w = (Ok st1, w1) /\ same_frame st st1
    /\ self_check_passed st1 = false /\ answer st1 = answer st.
Proof.
  open_agent.
  destruct (gate_rejects (query st) (answer st) (List.length (citations st)) w)
    as (text & w1 & Hllm & Hverdict).
  rewrite Hllm, Hverdict. do 2 eexists.
  split; [reflexivity|]. now repeat split.
Qed.

Lemma supervisor_returns st w :
  exists st1 w1,
    supervisor st w = (Ok st1, w1)
    /\ iteration_count st1 = iteration_count st
    /\ (final_response st1 = final_response st
        \/ out_of_domain str_lower (final_response st1) = true).
Proof.
  open_agent.
  destruct (supervisor_answered (query st) w) as (text & w1 & Hllm).
  rewrite Hllm. destruct (out_of_domain str_lower text) eqn:Hout;
    do 2 eexists; (split; [reflexivity|]); split; try reflexivity.
  - right. exact Hout.
  - left. reflexivity.
Qed.

Lemma gate_evaluations_cycle a b c (log : list Step) :
  gate_evaluations ((Retriever, a) :: (Answerer, b) :: (SelfCheck, c) :: log)
  = S (gate_evaluations log).
Proof. reflexivity. Qed.

(** One round of the cycle under a rejecting gate: back at the
    retriever, three nodes later, with the counter as it was. *)
Lemma rejected_round fuel st w :
  iteration_count st < 3 ->
  exists st3 w3 a b c,
    exec (S (S (S fuel))) Retriever st w
    = (let '(r, log, w') := exec fuel Retriever st3 w3 in
       (r, (Retriever, a) :: (Answerer, b) :: (SelfCheck, c) :: log, w'))
    /\ iteration_count st3 = iteration_count st.
Proof.
  intro Hlt.
  rewrite run_step. cbn [node_fn successor].
  destruct (retriever_returns st w) as (st1 & w1 & -> & _ & Hc1).
  rewrite run_step. cbn [node_fn successor].
  destruct (answerer_returns st1 w1) as (st2 & w2 & -> & _ & Hc2).
  rewrite run_step. cbn [node_fn].
  destruct (self_check_rejects st2 w2)
    as (st3 & w3 & -> & [_ Hc3] & Hp3 & _).
  destruct (gate_edge st3) as [[_ Hp] | [[-> _] | [_ [_ Hge]]]];
    [congruence | | lia].
  exists st3, w3, (iteration_count st1), (iteration_count st2),
    (iteration_count st3).
  split; [|lia].
  destruct (exec fuel Retriever st3 w3) as [[r lg] w']. reflexivity.
Qed.

(** Under a rejecting gate the run goes round until the fuel is used up:
    with fuel [3 * k + r] from the retriever, [k] gate evaluations. *)
Lemma rejected_spins k :
  forall st w r,
    r < 3 ->
    iteration_count st < 3 ->
    exists log w',
      exec (3 * k + r) Retriever st w = (Raise GraphRecursionError, log, w')
      /\ gate_evaluations log = k
      /\ List.length log = 3 * k + r.
Proof.
  induction k as [|k IH]; intros st w r Hr Hlt.
  - destruct r as [|[|[|r]]]; [| | |lia]; cbn [Nat.mul Nat.add].
    + do 2 eexists. repeat split.
    + rewrite run_step. cbn [node_fn successor].
      destruct (retriever_returns st w) as (st1 & w1 & -> & _).
      do 2 eexists. repeat split.
    + rewrite run_step. cbn [node_fn successor].
      destruct (retriever_returns st w) as (st1 & w1 & -> & _).
      rewrite run_step. cbn [node_fn successor].
      destruct (answerer_returns st1 w1) as (st2 & w2 & -> & _).
      do 2 eexists. repeat split.
  - replace (3 * S k + r) with (S (S (S (3 * k + r)))) by lia.
    destruct (@rejected_round (3 * k + r) st w Hlt)
      as (st3 & w3 & a & b & c & -> & Hc).
    destruct (IH st3 w3 r Hr) as (log & w' & -> & Hgate & Hlen); [lia|].
    do 2 eexists. split; [reflexivity|].
    rewrite gate_evaluations_cycle, Hgate. cbn [List.length].
    split; [reflexivity | lia].
Qed.

(** Every such run uses up the recursion limit: eight gate evaluations,
    twenty-five nodes, the counter at 0 throughout, and the caller gets the
    apology with [success = False]. *)
Lemma rejected_run q w :
  exists log w',
    invoke q w = (Raise GraphRecursionError, log, w')
    /\ gate_evaluations log = 8
    /\ List.length log = recursion_limit
    /\ Forall (fun s : Step => snd s = 0) log
    /\ process q w = (mkEnvelope APOLOGY None [] 0 false, w').
Proof.
  unfold process_query.
  pose proof (proj1 (counter_constant recursion_limit Supervisor
                       (initial_state q) w)) as Hzero.
  unfold graph_invoke in *. unfold recursion_limit in *.
  rewrite run_step in *. cbn [node_fn successor] in *.
  destruct (supervisor_returns (initial_state q) w)
    as (st1 & w1 & Hsup & Hc1 & _).
  rewrite Hsup in *.
  destruct (@rejected_spins 8 st1 w1 0)
    as (log & w' & Hrun & Hgate & Hlen); [lia | cbn in Hc1; lia |].
  change (3 * 8 + 0) with 24 in Hrun. rewrite Hrun in *.
  cbn [fst snd] in Hzero. do 2 eexists. split; [reflexivity|].
  split; [exact Hgate|]. split; [cbn [List.length]; lia|].
  split; [exact Hzero | reflexivity].
Qed.

End AlwaysRejected.

End Facts.

(** * Concrete runs *)

(** C1. The gate rejects every draft. The counter the routing function
    increments never reaches the state: it is 0 at every step, the retry
    edge is taken every time, and the run ends when the executor gives up:
    eight gate evaluations, twenty-five nodes, [GraphRecursionError].
    [process_query] returns the apology with [success = False], not the
    last draft. *)
Theorem rejected_run_hits_recursion_limit :
  let run_ := graph_invoke (Runs.judge Runs.REJECTED)
                (Stub.search [Stub.doc_ipcc]) latin1_lower Stub.a_query 0 in
  let env := fst (process_query (Runs.judge Runs.REJECTED)
                    (Stub.search [Stub.doc_ipcc]) Stub.markdown latin1_lower
                    Stub.a_query 0) in
  fst (fst run_) = Raise GraphRecursionError
  /\ gate_evaluations (snd (fst run_)) = 8
  /\ gate_evaluations (snd (fst run_)) <> MAX_RETRIES + 1
  /\ List.length (snd (fst run_)) = recursion_limit
  /\ Forall (fun s : Step => snd s = 0) (snd (fst run_))
  /\ success env = false
  /\ response env = APOLOGY
  /\ response env <> Stub.draft.
Proof.
  vm_compute. split; [reflexivity|]. split; [reflexivity|].
  split; [discriminate|]. split; [reflexivity|]. split.
  - repeat constructor.
  - split; [reflexivity|]. split; [reflexivity | discriminate].
Qed.

(** C2. The supervisor takes the query for out of the domain and stores
    its refusal, but its edge leads to the retriever all the same: the six
    nodes run, the safety agent overwrites the refusal, and
    [process_query] returns the annotated answer with one citation and a
    document count of 1. *)
Theorem refusal_is_overwritten :
  let run_ := graph_invoke Runs.refuser (Stub.search [Stub.doc_ipcc])
                latin1_lower Stub.off_topic 0 in
  let env := fst (process_query Runs.refuser (Stub.search [Stub.doc_ipcc])
                    Stub.markdown latin1_lower Stub.off_topic 0) in
  out_of_domain latin1_lower Stub.refusal = true
  /\ map fst (snd (fst run_))
     = [Supervisor; Retriever; Answerer; SelfCheck; Safety; Finalizer]
  /\ success env = true
  /\ response env <> Stub.refusal
  /\ startswith Stub.annotated (response env) = true
  /\ map cit_id (env_citations env) = [1]
  /\ retrieved_docs_count env = 1.
Proof.
  vm_compute. repeat split; try reflexivity. discriminate.
Qed.

(** C3. The gate keeps asking for improvements. The run does not end by
    the [end] edge: the counter is still 0 at the eighth rejection, the
    retry edge is taken once more and the executor gives up. The draft
    composed in [answer] is lost with the state, and [process_query]
    returns the apology with [success = False]: not the draft. The [end]
    edge itself, for a state with the retries used up, leads to [END] with
    the state as it is: nothing copies the draft to [final_response]. *)
Theorem rejecting_run_returns_apology_not_draft :
  let model := Runs.judge Runs.NEEDS_IMPROVEMENT in
  let search := Stub.search [Stub.doc_ipcc; Stub.doc_nasa] in
  let run_ := graph_invoke model search latin1_lower Stub.a_query 0 in
  let env := fst (process_query model search Stub.markdown latin1_lower
                    Stub.a_query 0) in
  fst (fst run_) = Raise GraphRecursionError
  /\ last (snd (fst run_)) (Supervisor, 0) = (SelfCheck, 0)
  /\ (exists st w, In (SelfCheck, st, w)
                     (visited model search latin1_lower recursion_limit
                        Supervisor (initial_state Stub.a_query) 0)
                   /\ answer st = Stub.draft
                   /\ final_response st = [])
  /\ success env = false
  /\ response env = APOLOGY
  /\ response env <> Stub.draft
  /\ (forall st,
        self_check_passed st = false -> 3 <= iteration_count st ->
        successor SelfCheck st = (END, st)).
Proof.
  cbv zeta. repeat (split; [vm_compute|]).
  - reflexivity.
  - reflexivity.
  - do 2 eexists. split; [do 3 right; left; reflexivity|].
    split; reflexivity.
  - reflexivity.
  - reflexivity.
  - discriminate.
  - intros st Hp Hc.
    destruct (gate_edge st) as [[_ H] | [[_ [_ H]] | [H _]]];
      [congruence | lia | exact H].
Qed.


Lemma process_query_never_raises_witness :
  exists w1,
    process_query Runs.deaf_to_safety (Stub.search [Stub.doc_ipcc])
      Stub.markdown latin1_lower Stub.a_query 0
    = (mkEnvelope APOLOGY None [] 0 false, w1).
Proof.
  eexists.
  refine (proj2 (proj2
            (@process_query_never_raises _ Runs.deaf_to_safety
               (Stub.search [Stub.doc_ipcc]) Stub.markdown latin1_lower
               Stub.a_query 0)) Safety _ _ _ _ _ _).
  - vm_compute. do 4 right. left. reflexivity.
  - reflexivity.
Defined.


Lemma apology_has_no_disclaimer : ~ endswith APOLOGY SAFETY_DISCLAIMER.
Proof.
  intros [front H]. apply (f_equal (@List.length N)) in H.
  rewrite length_app in H.
  assert (Hlt : (List.length APOLOGY <? List.length SAFETY_DISCLAIMER) = true)
    by (vm_compute; reflexivity).
  apply Nat.ltb_lt in Hlt. lia.
Qed.

(** C8, as stated, fails: the model call of the safety agent raises, the
    agent raises with it and appends nothing; what the caller gets is the
    apology, which does not end with the disclaimer. *)
Lemma safety_failure_leaves_no_disclaimer :
  fst (safety_agent Runs.deaf_to_safety (initial_state []) 0)
  = Raise (Exception (py "connection refused"))
  /\ response
       (fst (process_query Runs.deaf_to_safety (Stub.search [Stub.doc_ipcc])
               Stub.markdown latin1_lower Stub.a_query 0)) = APOLOGY
  /\ ~ endswith
         (response
            (fst (process_query Runs.deaf_to_safety
                    (Stub.search [Stub.doc_ipcc]) Stub.markdown latin1_lower
                    Stub.a_query 0)))
         SAFETY_DISCLAIMER.
Proof.
  split; [reflexivity|].
  assert (H : response
                (fst (process_query Runs.deaf_to_safety
                        (Stub.search [Stub.doc_ipcc]) Stub.markdown
                        latin1_lower Stub.a_query 0)) = APOLOGY)
    by (vm_compute; reflexivity).
  split; [exact H|]. rewrite H. exact apology_has_no_disclaimer.
Qed.

(** C10, as stated, fails: the run reaches the safety agent, its model call
    raises, and the run ends there: the finalizer is not run and the
    caller gets the apology with [success = False]. *)
Lemma safety_failure_stops_the_run :
  let run_ := graph_invoke Runs.deaf_to_safety (Stub.search [Stub.doc_ipcc])
                latin1_lower Stub.a_query 0 in
  map (fun c => fst (fst c))
    (visited Runs.deaf_to_safety (Stub.search [Stub.doc_ipcc]) latin1_lower
       recursion_limit Supervisor (initial_state Stub.a_query) 0)
  = [Supervisor; Retriever; Answerer; SelfCheck; Safety]
  /\ fst (fst run_) = Raise (Exception (py "connection refused"))
  /\ map fst (snd (fst run_)) = [Supervisor; Retriever; Answerer; SelfCheck]
  /\ ~ In Finalizer (map fst (snd (fst run_)))
  /\ success
       (fst (process_query Runs.deaf_to_safety (Stub.search [Stub.doc_ipcc])
               Stub.markdown latin1_lower Stub.a_query 0)) = false.
Proof.
  vm_compute. split; [reflexivity|]. split; [reflexivity|].
  split; [reflexivity|]. split; [|reflexivity].
  intros [H | [H | [H | [H | []]]]]; discriminate.
Qed.

(** C5, as stated, fails: with an empty search result and an approving
    gate the response is the annotation and the disclaimer, not the fixed
    message. *)
Lemma empty_retrieval_response_is_annotated :
  (forall q k w, fst (Stub.search [] q k w) = Ok [])
  /\ response
       (fst (process_query (Runs.judge Runs.APPROVED) (Stub.search [])
               Stub.markdown latin1_lower Stub.a_query 0))
     <> NO_INFORMATION
  /\ response
       (fst (process_query (Runs.judge Runs.APPROVED) (Stub.search [])
               Stub.markdown latin1_lower Stub.a_query 0))
     = Stub.annotated ++ [10%N; 10%N] ++ SAFETY_DISCLAIMER.
Proof.
  split; [reflexivity|]. vm_compute. split; [discriminate | reflexivity].
Qed.

Lemma empty_retrieval_short_circuits_witness :
  (forall q k w,
      match fst (Stub.search [] q k w) with
      | Ok found => found = []
      | Raise _ => True
      end)
  /\ env_citations
       (fst (process_query (Runs.judge Runs.APPROVED) (Stub.search [])
               Stub.markdown latin1_lower Stub.a_query 0)) = [].
Proof.
  split; [intros; reflexivity|].
  exact (proj1 (proj2
           (@empty_retrieval_short_circuits _ (Runs.judge Runs.APPROVED)
              (Stub.search []) Stub.markdown latin1_lower
              (fun q k w => eq_refl) Stub.a_query 0))).
Defined.

(** C7, as stated, fails: a document of 200 characters gets an excerpt of
    203. *)
Lemma excerpt_exceeds_200 :
  exists st1,
    fst (answerer_agent (Runs.judge Runs.APPROVED)
           (set_retrieved_docs [Stub.doc_long] (initial_state Stub.a_query)) 0)
    = Ok st1
    /\ exists c,
         In c (citations st1)
         /\ List.length (cit_content c) = 203
         /\ ~ List.length (cit_content c) <= 200.
Proof.
  eexists. split; [vm_compute; reflexivity|].
  eexists. split; [left; reflexivity|].
  split; [reflexivity|]. vm_compute. lia.
Qed.

(** ** Further runs *)

Example disclaimer_length : List.length SAFETY_DISCLAIMER = 348.
Proof. reflexivity. Qed.

Example verdicts_parse :
  parse_verdict latin1_lower Runs.APPROVED = true
  /\ parse_verdict latin1_lower (py "Approved, com ressalvas.") = true
  /\ parse_verdict latin1_lower Runs.NEEDS_IMPROVEMENT = false
  /\ parse_verdict latin1_lower (py "Rejected.") = false
  /\ parse_verdict latin1_lower (py "REJECTED: not approved") = true
  /\ parse_verdict latin1_lower Runs.UNCLEAR = true.
Proof. vm_compute. repeat split. Qed.

(** Two documents, a gate that approves at once: two citations with
    ordinals 1 and 2, and a response made of the annotation, the
    disclaimer and the list of sources. *)
Example approved_run :
  process_query (Runs.judge Runs.APPROVED)
    (Stub.search [Stub.doc_ipcc; Stub.doc_nasa]) Stub.markdown latin1_lower
    Stub.a_query 0
  = (mkEnvelope
       (Stub.annotated ++ [10%N; 10%N] ++ SAFETY_DISCLAIMER
        ++ [10%N; 10%N] ++ py "**Fontes consultadas:**" ++ [10%N]
        ++ py "- [1] IPCC_AR6" ++ [10%N]
        ++ py "- [2] NASA_Report (https://nasa.gov)" ++ [10%N])
       (Some
          (Stub.annotated ++ [10%N; 10%N] ++ SAFETY_DISCLAIMER
           ++ [10%N; 10%N] ++ py "**Fontes consultadas:**" ++ [10%N]
           ++ py "- [1] IPCC_AR6" ++ [10%N]
           ++ py "- [2] NASA_Report (https://nasa.gov)" ++ [10%N]))
       (cite_all 0 (map to_retrieved [Stub.doc_ipcc; Stub.doc_nasa]))
       2 true,
     6).
Proof. vm_compute. reflexivity. Qed.

(** The model is down: the supervisor raises and the caller gets the
    apology. *)
Example model_down :
  process_query Stub.llm_down (Stub.search [Stub.doc_ipcc]) Stub.markdown
    latin1_lower Stub.a_query 0
  = (mkEnvelope APOLOGY None [] 0 false, 1).
Proof. reflexivity. Qed.

(** * Further properties of the pipeline *)



Section Bounds.

Variable World : Type.
Variable llm_invoke : Prompt -> World -> result pystr * World.
Variable search_with_scores :
  pystr -> nat -> World -> result (list (Document * score)) * World.
Variable str_lower : pystr -> pystr.

Local Abbreviation node := (node_fn llm_invoke search_with_scores str_lower).
Local Abbreviation exec := (run llm_invoke search_with_scores str_lower).
Local Abbreviation invoke := (graph_invoke llm_invoke search_with_scores str_lower).



(** X2. The retry counter does not count the retries: the increment the
    routing function makes is lost, so [iteration_count] is 0 at every
    step of every run, and 0 in the state of a run that completes. *)
Theorem retry_counter_stays_zero q w :
  Forall (fun s : Step => snd s = 0)
    (snd (fst (graph_invoke llm_invoke search_with_scores str_lower q w)))
  /\ match fst (fst (graph_invoke llm_invoke search_with_scores str_lower
                       q w)) with
     | Ok st => iteration_count st = 0
     | Raise _ => True
     end.
Proof.
  unfold graph_invoke.
  exact (counter_constant llm_invoke search_with_scores str_lower
           recursion_limit Supervisor (initial_state q) w).
Qed.

(** The two flags on entry to node [n], with the counter at 0. *)
Definition flags_at (n : Node) (st : AgentState) : Prop :=
  iteration_count st = 0
  /\ match n with
     | Supervisor | Retriever | Answerer | SelfCheck => True
     | Safety => self_check_passed st = true
     | Finalizer =>
         self_check_passed st = true /\ safety_check_passed st = true
     end.

Definition flags_end (st : AgentState) : Prop :=
  self_check_passed st = true /\ safety_check_passed st = true.

Lemma flags_kept n st w st1 w1 :
  flags_at n st -> node n st w = (Ok st1, w1) ->
  match successor n st1 with
  | (Goto m, st2) => flags_at m st2
  | (END, st2) => flags_end st2
  end.
Proof.
  unfold flags_at, flags_end. intros [Hc Hinv] Hnode.
  assert (Hk : iteration_count st1 = iteration_count st)
    by (eapply node_keeps_counter; exact Hnode).
  rewrite Hc in Hk.
  destruct n.
  - split; [exact Hk | exact I].
  - split; [exact Hk | exact I].
  - split; [exact Hk | exact I].
  - destruct (gate_edge st1) as [[He Hp] | [[He Hp] | [He [Hp Hge]]]];
      rewrite He.
    + split; [exact Hk | exact Hp].
    + split; [exact Hk | exact I].
    + lia.
  - cbn [successor]. split; [exact Hk|]. revert Hnode. cbn [node_fn].
    unfold safety_agent, bind, ret.
    destruct (llm_invoke _ w) as [[text|e] w2]; [|discriminate].
    intro H; inversion H; subst. cbn. split; [exact Hinv | reflexivity].
  - cbn [successor]. revert Hnode. cbn [node_fn]. unfold finalizer_agent, ret.
    destruct (citations st); intro H; inversion H; subst; cbn; exact Hinv.
Qed.

Lemma completed_log_nonempty fuel n st w stf w' :
  exec fuel n st w <> (Ok stf, [], w').
Proof.
  destruct fuel as [|fuel]; [discriminate|].
  rewrite run_step.
  destruct (node n st w) as [[st1|e] w1]; [|discriminate].
  destruct (successor n st1) as [[m|] st2]; [|discriminate].
  destruct (exec fuel m st2 w1) as [[r lg] w2]. discriminate.
Qed.

Lemma run_ends_at_finalizer fuel :
  forall n st w stf log w' d,
    iteration_count st = 0 ->
    exec fuel n st w = (Ok stf, log, w') ->
    last (map fst log) d = Finalizer.
Proof.
  induction fuel as [|fuel IH]; intros n st w stf log w' d Hc Hrun.
  - discriminate.
  - rewrite run_step in Hrun.
    destruct (node n st w) as [[st1|e] w1] eqn:Hnode; [|discriminate].
    assert (Hk : iteration_count st1 = iteration_count st)
      by (eapply node_keeps_counter; exact Hnode).
    rewrite Hc in Hk.
    pose proof (successor_keeps_state n st1) as Hs.
    destruct (successor n st1) as [[m|] st2] eqn:Hsucc; cbn in Hs; subst st2.
    + destruct (exec fuel m st1 w1) as [[r lg] w2] eqn:Hrest.
      inversion Hrun; subst.
      pose proof (IH _ _ _ _ _ _ d Hk Hrest) as Hlast.
      destruct lg as [|s lg];
        [exfalso; exact (completed_log_nonempty _ _ _ _ Hrest)|].
      exact Hlast.
    + destruct n; try (cbn in Hsucc; discriminate).
      * destruct (gate_edge st1) as [[He _] | [[He _] | [_ [_ Hge]]]];
          [congruence | congruence | lia].
      * inversion Hrun; subst. reflexivity.
Qed.

(** X3. A run that completes was approved: it ends with both
    [self_check_passed] and [safety_check_passed] set, and the last node it
    ran is the finalizer. No run ends through the [end] edge of the gate,
    so no unapproved draft is ever returned. *)
Theorem completed_run_was_approved q w st log w' :
  graph_invoke llm_invoke search_with_scores str_lower q w = (Ok st, log, w') ->
  self_check_passed st = true
  /\ safety_check_passed st = true
  /\ last (map fst log) Supervisor = Finalizer.
Proof.
  unfold graph_invoke. intro Hrun.
  assert (Hend : flags_end st).
  { eapply (run_invariant llm_invoke search_with_scores str_lower
              flags_at flags_end flags_kept); [|exact Hrun].
    unfold flags_at. cbn. split; [reflexivity | exact I]. }
  destruct Hend as [Hself Hsafe].
  split; [exact Hself|]. split; [exact Hsafe|].
  eapply run_ends_at_finalizer; [|exact Hrun]. reflexivity.
Qed.

End Bounds.

(** ** The response of an approved run *)

Lemma fold_left_lines (cits : list Citation) :
  forall text,
    fold_left (fun t c => t ++ citation_line c) cits text
    = text ++ List.concat (map citation_line cits).
Proof.
  induction cits as [|c rest IH]; intro text; cbn.
  - now rewrite app_nil_r.
  - rewrite IH, <- app_assoc. reflexivity.
Qed.

Lemma citation_block_lines (cits : list Citation) :
  citation_block cits = SOURCES_HEADER ++ List.concat (map citation_line cits).
Proof. unfold citation_block. apply fold_left_lines. Qed.

(** The response carries the disclaimer and then the sources. *)
Definition published (st : AgentState) : Prop :=
  exists annotation,
    final_response st
    = annotation ++ [10%N; 10%N] ++ SAFETY_DISCLAIMER
      ++ sources_block (citations st).

Definition approved_at (n : Node) (st : AgentState) : Prop :=
  match n with
  | Supervisor | Retriever | Answerer | SelfCheck => True
  | Safety => self_check_passed st = true
  | Finalizer => self_check_passed st = true /\ annotated_response st
  end.

Definition approved_end (st : AgentState) : Prop :=
  self_check_passed st = true -> published st.

Section Approved.

Variable World : Type.
Variable llm_invoke : Prompt -> World -> result pystr * World.
Variable search_with_scores :
  pystr -> nat -> World -> result (list (Document * score)) * World.
Variable markdown_convert : pystr -> result pystr.
Variable str_lower : pystr -> pystr.

Local Abbreviation node := (node_fn llm_invoke search_with_scores str_lower).
Local Abbreviation exec := (run llm_invoke search_with_scores str_lower).
Local Abbreviation invoke := (graph_invoke llm_invoke search_with_scores str_lower).
Local Abbreviation process :=
  (process_query llm_invoke search_with_scores markdown_convert str_lower).

Lemma approved_kept n st w st1 w1 :
  approved_at n st -> node n st w = (Ok st1, w1) ->
  match successor n st1 with
  | (Goto m, st2) => approved_at m st2
  | (END, st2) => approved_end st2
  end.
Proof.
  unfold approved_at, approved_end. intros Hinv Hnode.
  destruct n; cbn [successor node_fn] in *; trivial; revert Hnode;
    unfold self_check_agent, safety_agent, finalizer_agent, bind, ret.
  - destruct (llm_invoke _ w) as [[text|e] w2]; [|discriminate].
    intro H; inversion H; subst.
    unfold _should_continue_after_self_check.
    cbn [self_check_passed set_messages set_self_check_passed
         iteration_count].
    destruct (parse_verdict str_lower text); cbn -[Nat.ltb]; [reflexivity|].
    destruct (iteration_count st <? 3); cbn; [trivial | discriminate].
  - destruct (llm_invoke _ w) as [[text|e] w2]; [|discriminate].
    intro H; inversion H; subst. cbn. split; [exact Hinv|].
    exists text. reflexivity.
  - destruct Hinv as [Hpass (annotation & Hann)].
    destruct (citations st) as [|c rest] eqn:Hcits;
      intro H; inversion H; subst; intros _; exists annotation;
      unfold published; cbn [final_response citations set_final_response];
      rewrite Hcits, Hann.
    + cbn [sources_block]. now rewrite !app_nil_r.
    + cbn [sources_block]. rewrite citation_block_lines.
      now rewrite <- !app_assoc.
Qed.

(** X4. When the gate approved the draft, the response [process_query]
    returns is the safety agent's annotation, a blank line, the
    disclaimer, and then, if there are citations, the header and one line
    per citation in the order of the retrieved documents; with no citation
    it ends with the disclaimer. *)
Theorem approved_response_layout q w st log w' :
  invoke q w = (Ok st, log, w') ->
  self_check_passed st = true ->
  exists annotation,
    response (fst (process q w))
    = annotation ++ [10%N; 10%N] ++ SAFETY_DISCLAIMER
      ++ sources_block (cite_all 0 (retrieved_docs st))
    /\ env_citations (fst (process q w)) = cite_all 0 (retrieved_docs st).
Proof.
  intros Hrun Hpass.
  pose proof (run_cited_in_order _ _ _ _ _ Hrun) as Hcited.
  assert (Hend : approved_end st).
  { unfold graph_invoke in Hrun.
    refine (run_invariant llm_invoke search_with_scores str_lower
              approved_at approved_end approved_kept _ _ _ _ _ Hrun).
    exact I. }
  destruct (Hend Hpass) as (annotation & Hann).
  exists annotation. unfold process_query. rewrite Hrun. cbn.
  rewrite Hann, Hcited. split; reflexivity.
Qed.

(** ** The fan-out of the retrieval *)

Section FanOut.

(** The search returns at most as many documents as it is asked for. *)
Hypothesis search_respects_k :
  forall q k w,
    match fst (search_with_scores q k w) with
    | Ok found => List.length found <= k
    | Raise _ => True
    end.

Definition few_docs_at (n : Node) (st : AgentState) : Prop :=
  match n with
  | Supervisor | Retriever => True
  | Answerer | SelfCheck | Safety | Finalizer =>
      List.length (retrieved_docs st) <= 5
  end.

Lemma few_docs_kept n st w st1 w1 :
  few_docs_at n st -> node n st w = (Ok st1, w1) ->
  match successor n st1 with
  | (Goto m, st2) => few_docs_at m st2
  | (END, st2) => List.length (retrieved_docs st2) <= 5
  end.
Proof.
  unfold few_docs_at. intros Hinv Hnode.
  destruct n; cbn [successor node_fn] in *; trivial.
  - revert Hnode. unfold retriever_agent, bind, ret, try_except.
    pose proof (search_respects_k (query st) 5 w) as Hk.
    destruct (search_with_scores (query st) 5 w) as [[found|e] w2];
      cbn in Hk.
    + destruct (llm_invoke _ w2) as [[text|e] w3];
        intro H; inversion H; subst; cbn; [|lia].
      now rewrite length_map.
    + intro H; inversion H; subst; cbn; lia.
  - apply answerer_citations in Hnode. destruct Hnode as [_ Hdocs].
    now rewrite Hdocs.
  - revert Hnode. unfold self_check_agent, bind, ret.
    destruct (llm_invoke _ w) as [[text|e] w2]; [|discriminate].
    intro H; inversion H; subst.
    unfold _should_continue_after_self_check.
    cbn [self_check_passed set_messages set_self_check_passed
         iteration_count].
    destruct (parse_verdict str_lower text); cbn -[Nat.ltb]; [exact Hinv|].
    destruct (iteration_count st <? 3); cbn; [trivial | exact Hinv].
  - revert Hnode. unfold safety_agent, bind, ret.
    destruct (llm_invoke _ w) as [[text|e] w2]; [|discriminate].
    intro H; inversion H; subst. exact Hinv.
  - revert Hnode. unfold finalizer_agent, ret.
    destruct (citations st); intro H; inversion H; subst; exact Hinv.
Qed.

(** X5. The retriever asks for five documents. When the search returns
    no more than it is asked for, [process_query] reports at most five
    documents and returns at most five citations, with ordinals between 1
    and 5. *)
Theorem at_most_five_citations q w :
  let env := fst (process_query llm_invoke search_with_scores
                    markdown_convert str_lower q w) in
  retrieved_docs_count env <= 5
  /\ List.length (env_citations env) <= 5
  /\ Forall (fun c => 1 <= cit_id c <= 5) (env_citations env).
Proof.
  cbv zeta.
  destruct (process_citations llm_invoke search_with_scores markdown_convert
              str_lower q w) as (docs & Hc & Hn & Hdocs).
  assert (Hlen : List.length docs <= 5).
  { destruct (invoke q w) as [[[st|e] log] w'] eqn:Hrun; cbn in Hdocs; subst.
    - unfold graph_invoke in Hrun.
      refine (run_invariant llm_invoke search_with_scores str_lower
                few_docs_at (fun s => List.length (retrieved_docs s) <= 5)
                few_docs_kept _ _ _ _ _ Hrun).
      exact I.
    - cbn. lia. }
  rewrite Hn, Hc, cite_all_length. split; [exact Hlen|]. split; [exact Hlen|].
  apply Forall_forall. intros c Hin.
  apply (in_map cit_id) in Hin. rewrite cite_all_ids in Hin.
  apply in_seq in Hin. lia.
Qed.

End FanOut.

End Approved.

(** ** Runs that complete *)

Section Completion.

Variable World : Type.
Variable llm_invoke : Prompt -> World -> result pystr * World.
Variable search_with_scores :
  pystr -> nat -> World -> result (list (Document * score)) * World.
Variable markdown_convert : pystr -> result pystr.
Variable str_lower : pystr -> pystr.

Local Abbreviation retriever := (retriever_agent llm_invoke search_with_scores).
Local Abbreviation exec := (run llm_invoke search_with_scores str_lower).
Local Abbreviation invoke := (graph_invoke llm_invoke search_with_scores str_lower).
Local Abbreviation process :=
  (process_query llm_invoke search_with_scores markdown_convert str_lower).

(** X7. The retriever never raises. When the search and the model both
    answer, it stores the documents found, in their order, and appends
    the model's text to the messages; when the search raises, or when the
    search answers and the model then raises, it stores no document at
    all. It writes no other field. *)
Theorem retriever_degrades st w :
  match search_with_scores (query st) 5 w with
  | (Ok found, w1) =>
      match llm_invoke
              (RetrieverPrompt (query st) (map preview (map to_retrieved found)))
              w1 with
      | (Ok text, w2) =>
          retriever st w
          = (Ok (set_messages (messages st ++ [text])
                   (set_retrieved_docs (map to_retrieved found) st)), w2)
          /\ map content (map to_retrieved found)
             = map (fun ds => page_content (fst ds)) found
      | (Raise _, w2) => retriever st w = (Ok (set_retrieved_docs [] st), w2)
      end
  | (Raise _, w1) => retriever st w = (Ok (set_retrieved_docs [] st), w1)
  end
  /\ exists st1 w1,
       retriever st w = (Ok st1, w1)
       /\ query st1 = query st /\ answer st1 = answer st
       /\ citations st1 = citations st
       /\ final_response st1 = final_response st
       /\ iteration_count st1 = iteration_count st
       /\ self_check_passed st1 = self_check_passed st
       /\ safety_check_passed st1 = safety_check_passed st.
Proof.
  unfold retriever_agent, bind, ret, try_except.
  destruct (search_with_scores (query st) 5 w) as [[found|e] w1].
  - destruct (llm_invoke _ w1) as [[text|e] w2]; split;
      try (do 2 eexists; split; [reflexivity | now repeat split]).
    + split; [reflexivity|]. now rewrite map_map.
    + reflexivity.
  - split; [reflexivity|].
    do 2 eexists; split; [reflexivity | now repeat split].
Qed.

Section Answered.

(** The model answers the supervisor, the answerer and the safety agent,
    and the verdict it gives the gate parses as an approval. *)
Hypothesis supervisor_answered :
  forall q w, exists text w1, llm_invoke (SupervisorPrompt q) w = (Ok text, w1).
Hypothesis answerer_answered :
  forall q c w, exists text w1, llm_invoke (AnswererPrompt q c) w = (Ok text, w1).
Hypothesis gate_approves :
  forall q a n w, exists text w1,
    llm_invoke (SelfCheckPrompt q a n) w = (Ok text, w1)
    /\ parse_verdict str_lower text = true.
Hypothesis safety_answered :
  forall a w, exists text w1, llm_invoke (SafetyPrompt a) w = (Ok text, w1).

Lemma self_check_approves st w :
  exists st1 w1,
    self_check_agent llm_invoke str_lower st w = (Ok st1, w1)
    /\ self_check_passed st1 = true.
Proof.
  unfold self_check_agent, bind, ret.
  destruct (gate_approves (query st) (answer st)
              (List.length (citations st)) w) as (text & w1 & Hllm & Hverdict).
  rewrite Hllm, Hverdict. do 2 eexists. split; reflexivity.
Qed.

Lemma safety_then_finalizer fuel st w :
  exists stf log w',
    exec (S (S fuel)) Safety st w = (Ok stf, log, w')
    /\ map fst log = [Safety; Finalizer].
Proof.
  rewrite run_step. cbn [node_fn successor].
  unfold safety_agent, bind, ret.
  destruct (safety_answered (answer st) w) as (text & w1 & Hllm).
  rewrite Hllm. rewrite run_step. cbn [node_fn successor].
  unfold finalizer_agent, ret.
  cbn [citations set_final_response set_safety_check_passed].
  destruct (citations st); do 3 eexists; split; reflexivity.
Qed.

(** X6. When the model answers the supervisor, the answerer and the safety
    agent and the gate approves the draft, [process_query] succeeds and
    each of the six nodes runs once, whatever the search and the model's
    answer to the retriever are: a failure inside the retriever never fails
    the query. *)
Theorem query_succeeds_despite_retriever q w :
  success (fst (process_query llm_invoke search_with_scores
                  markdown_convert str_lower q w)) = true
  /\ exists st log w',
       graph_invoke llm_invoke search_with_scores str_lower q w
       = (Ok st, log, w')
       /\ map fst log
          = [Supervisor; Retriever; Answerer; SelfCheck; Safety; Finalizer].
Proof.
  assert (Hrun : exists st log w',
             invoke q w = (Ok st, log, w')
             /\ map fst log
                = [Supervisor; Retriever; Answerer; SelfCheck; Safety;
                   Finalizer]).
  { unfold graph_invoke, recursion_limit.
    rewrite run_step. cbn [node_fn successor].
    destruct (supervisor_returns llm_invoke str_lower supervisor_answered
                (initial_state q) w) as (st1 & w1 & -> & _).
    rewrite run_step. cbn [node_fn successor].
    destruct (retriever_returns llm_invoke search_with_scores st1 w1)
      as (st2 & w2 & -> & _).
    rewrite run_step. cbn [node_fn successor].
    destruct (answerer_returns llm_invoke answerer_answered st2 w2)
      as (st3 & w3 & -> & _).
    rewrite run_step. cbn [node_fn].
    destruct (self_check_approves st3 w3) as (st4 & w4 & -> & Hp).
    destruct (gate_edge st4) as [[-> _] | [[_ [Hq _]] | [_ [Hq _]]]];
      [|congruence|congruence].
    destruct (safety_then_finalizer 19 st4 w4)
      as (stf & log & w' & -> & Hlog).
    do 3 eexists. split; [reflexivity|]. cbn [map fst]. now rewrite Hlog. }
  destruct Hrun as (st & log & w' & Hrun & Hlog).
  split; [|exists st, log, w'; split; [exact Hrun | exact Hlog]].
  unfold process_query. now rewrite Hrun.
Qed.

End Answered.

End Completion.

(** ** Source tags *)

Lemma digits_of_uint_inj (d : Decimal.uint) :
  forall d', digits_of_uint d = digits_of_uint d' -> d = d'.
Proof.
  induction d; intros d' H; destruct d'; cbn in H;
    try discriminate; try reflexivity;
    inversion H as [H']; f_equal; auto.
Qed.

Lemma enumerate_docs_context (docs : list RetrievedDoc) :
  forall i context cits,
    fst (enumerate_docs i docs context cits) = context ++ context_all i docs.
Proof.
  induction docs as [|doc rest IH]; intros i context cits; simpl.
  - now rewrite app_nil_r.
  - rewrite IH, <- app_assoc. reflexivity.
Qed.

(** X8. The answerer numbers the documents alike in the prompt and in the
    citations: the entry of the context for the document at position [k]
    is tagged [[Fonte N]] with [N] the ordinal of the citation at position
    [k], and carries the whole content of the document. Different
    ordinals are never printed as the same tag. *)
Theorem source_tags_match_citations (docs : list RetrievedDoc) :
  enumerate_docs 0 docs [] [] = (context_all 0 docs, cite_all 0 docs)
  /\ (forall k doc c,
        nth_error docs k = Some doc ->
        nth_error (cite_all 0 docs) k = Some c ->
        context_entry k doc
        = [10%N] ++ py "[Fonte " ++ str_of_nat (cit_id c) ++ py "]: "
          ++ content doc ++ [10%N])
  /\ (forall n m, str_of_nat n = str_of_nat m -> n = m).
Proof.
  split; [|split].
  - rewrite (surjective_pairing (enumerate_docs 0 docs [] [])).
    now rewrite enumerate_docs_context, enumerate_docs_citations.
  - intros k doc c Hdoc Hc.
    rewrite (cite_all_nth docs 0 k Hdoc) in Hc. inversion Hc; subst.
    reflexivity.
  - intros n m H. unfold str_of_nat in H.
    apply digits_of_uint_inj in H.
    rewrite <- (DecimalNat.Unsigned.of_to n), <- (DecimalNat.Unsigned.of_to m).
    now rewrite H.
Qed.

(** * The HTTP layer *)

Lemma first_user_message_skips (ms rest : list ChatMessage) :
  Forall (fun m => is_user m = false) ms ->
  first_user_message (ms ++ rest) = first_user_message rest.
Proof.
  induction 1 as [|m ms Hm _ IH]; cbn; [reflexivity|].
  now rewrite Hm.
Qed.

(** The last message whose role is ['user'] decides, whatever comes
    before it and whatever follows it with another role. *)
Lemma last_user_message_found (before after : list ChatMessage) m :
  is_user m = true ->
  Forall (fun x => is_user x = false) after ->
  last_user_message (before ++ m :: after)
  = Some (match msg_content m with Some c => c | None => [] end).
Proof.
  intros Hm Hafter. unfold last_user_message.
  rewrite rev_app_distr. cbn [List.rev]. rewrite <- !app_assoc.
  rewrite first_user_message_skips.
  - cbn. now rewrite Hm.
  - apply Forall_rev. exact Hafter.
Qed.

Lemma seq_firstn (k : nat) :
  forall a n, firstn k (seq a n) = seq a (Nat.min k n).
Proof.
  induction k as [|k IH]; intros a n; [reflexivity|].
  destruct n as [|n]; [reflexivity|]. cbn. now rewrite IH.
Qed.

(** What [get_response] answers once [process_query] has returned. *)
Definition reply (res : Envelope) : HttpResponse :=
  if success res
  then mkHttpResponse 200
         (AnswerBody (response res)
            (match response_html res with
             | Some html => html
             | None => response res
             end)
            (List.length (env_citations res)) (retrieved_docs_count res)
            (firstn 3 (env_citations res)))
  else mkHttpResponse 500
         (ErrorBody (response res) (ErrorLiteral (py "Processing failed"))).

Section HandlerFacts.

Variable World : Type.
Variable llm_invoke : Prompt -> World -> result pystr * World.
Variable search_with_scores :
  pystr -> nat -> World -> result (list (Document * score)) * World.
Variable markdown_convert : pystr -> result pystr.
Variable str_lower : pystr -> pystr.

Local Abbreviation invoke := (graph_invoke llm_invoke search_with_scores str_lower).
Local Abbreviation process :=
  (process_query llm_invoke search_with_scores markdown_convert str_lower).
Local Abbreviation handle :=
  (get_response llm_invoke search_with_scores markdown_convert str_lower).

(** X9. [get_response] answers the last message whose role is ['user']:
    messages after it with another role, and every message before it,
    play no part. With the system initialized and that message not empty,
    the reply is the one built from [process_query] on its content. *)
Theorem get_response_answers_last_user_message before m after c w :
  role m = Some USER ->
  msg_content m = Some c ->
  c <> [] ->
  Forall (fun x => is_user x = false) after ->
  handle (Ok (Some (mkChatPayload (Some (before ++ m :: after))))) true w
  = (reply (fst (process c w)), snd (process c w)).
Proof.
  intros Hrole Hcontent Hc Hafter.
  assert (Hm : is_user m = true).
  { unfold is_user. rewrite Hrole.
    destruct (list_eq_dec N.eq_dec USER USER); congruence. }
  unfold get_response. cbn [payload_messages].
  rewrite (@last_user_message_found before after m Hm Hafter), Hcontent.
  destruct c as [|ch c']; [congruence|].
  cbn [negb]. unfold reply.
  destruct (process (ch :: c') w) as [res w']. cbn [fst snd].
  destruct (success res); reflexivity.
Qed.

(** X10. When the last message whose role is ['user'] has no content, or
    an empty one, [get_response] answers 400 without running the
    pipeline, even if an earlier user message has a content and whether
    or not the system is initialized. *)
Theorem get_response_rejects_empty_last_message before m after agents w :
  role m = Some USER ->
  msg_content m = None \/ msg_content m = Some [] ->
  Forall (fun x => is_user x = false) after ->
  handle (Ok (Some (mkChatPayload (Some (before ++ m :: after))))) agents w
  = (mkHttpResponse 400
       (ErrorBody NO_QUESTION (ErrorLiteral (py "No user message found"))), w).
Proof.
  intros Hrole Hcontent Hafter.
  assert (Hm : is_user m = true).
  { unfold is_user. rewrite Hrole.
    destruct (list_eq_dec N.eq_dec USER USER); congruence. }
  unfold get_response. cbn [payload_messages].
  rewrite (@last_user_message_found before after m Hm Hafter).
  destruct Hcontent as [-> | ->]; reflexivity.
Qed.

Lemma process_envelope q w :
  let env := fst (process q w) in
  (success env = true ->
     response_html env
     = Some (_convert_markdown_to_html markdown_convert (response env)))
  /\ List.length (env_citations env) = retrieved_docs_count env
  /\ map cit_id (env_citations env) = seq 1 (retrieved_docs_count env).
Proof.
  cbv zeta.
  destruct (process_citations llm_invoke search_with_scores markdown_convert
              str_lower q w) as (docs & Hc & Hn & _).
  split.
  - unfold process_query.
    destruct (invoke q w) as [[[st|e] log] w']; cbn; [reflexivity|discriminate].
  - rewrite Hc, Hn, cite_all_length, cite_all_ids. split; reflexivity.
Qed.

(** X11. Every answer of [get_response] has status 200, 400, 500 or 503.
    A 200 body tells as many citations as documents, shows the first
    three citations at most, with ordinals 1, 2, 3 in that order, and its
    HTML is the rendering of its response (the response itself when the
    renderer fails). *)
Theorem get_response_answer_shape data agents w :
  let r := fst (handle data agents w) in
  match body r with
  | AnswerBody text html n_citations n_docs shown =>
      status r = 200
      /\ n_citations = n_docs
      /\ map cit_id shown = seq 1 (Nat.min 3 n_citations)
      /\ List.length shown <= 3
      /\ html = _convert_markdown_to_html markdown_convert text
  | ErrorBody _ _ => status r = 400 \/ status r = 500 \/ status r = 503
  | ErrorOnly _ | SearchBody _ _ _ => False
  end.
Proof.
  cbv zeta. unfold get_response.
  destruct data as [[[[msgs|]]|]|e]; cbn -[firstn Nat.min seq]; auto.
  destruct (last_user_message msgs) as [[|ch c]|]; cbn -[firstn Nat.min seq]; auto.
  destruct agents; cbn -[firstn Nat.min seq]; auto.
  pose proof (process_envelope (ch :: c) w) as Henv. cbv zeta in Henv.
  destruct (process (ch :: c) w) as [res w']. cbn [fst] in Henv.
  destruct Henv as (Hhtml & Hlen & Hids).
  destruct (success res) eqn:Hs; cbn -[firstn Nat.min seq]; auto.
  rewrite (Hhtml eq_refl). split; [reflexivity|]. split; [exact Hlen|].
  split; [|split; [apply firstn_le_length | reflexivity]].
  rewrite <- firstn_map, Hids, seq_firstn, Hlen. reflexivity.
Qed.

(** X12. While the system is not initialized, [get_response] never runs
    the pipeline: it leaves the world as it is, and it answers either 503
    or exactly what it answers to the same request once initialized, the
    checks of the request coming first. *)
Theorem get_response_uninitialized data w :
  snd (get_response llm_invoke search_with_scores markdown_convert
         str_lower data false w) = w
  /\ (status (fst (get_response llm_invoke search_with_scores
                     markdown_convert str_lower data false w)) = 503
      \/ get_response llm_invoke search_with_scores markdown_convert
           str_lower data false w
         = get_response llm_invoke search_with_scores markdown_convert
             str_lower data true w).
Proof.
  unfold get_response.
  destruct data as [[[[msgs|]]|]|e]; cbn; auto.
  destruct (last_user_message msgs) as [[|ch c]|]; cbn; auto.
Qed.

End HandlerFacts.

(** ** The search endpoint and the document processor *)

Section SearchFacts.

Variable World : Type.
Variable llm_invoke : Prompt -> World -> result pystr * World.
Variable markdown_convert : pystr -> result pystr.
Variable str_lower : pystr -> pystr.
Variable VectorStore : Type.
Variable similarity_search_with_score :
  VectorStore -> pystr -> nat -> World
  -> result (list (Document * score)) * World.

Local Abbreviation processor_search :=
  (DocumentProcessor.search_with_scores similarity_search_with_score).

(** X13. A 200 answer of [/search] is given only for a non-empty query
    and a processor whose search returned: it lists one result per
    document found, in the same order and with the same scores, tells
    their number, and cuts each content to its first 500 characters
    followed by ["..."], 503 characters at most. Every other answer has
    status 400, 500 or 503. *)
Theorem search_documents_answer_shape data
    (document_processor :
       option (pystr -> nat -> M World (list (Document * score)))) w :
  let r := fst (search_documents data document_processor w) in
  match body r with
  | SearchBody q results count =>
      status r = 200
      /\ q <> []
      /\ count = List.length results
      /\ Forall (fun res => List.length (content res) <= 503) results
      /\ exists search found,
           document_processor = Some search
           /\ fst (search q 5 w) = Ok found
           /\ results = map search_result found
           /\ count = List.length found
           /\ map rd_score results = map snd found
  | ErrorOnly _ => status r = 400 \/ status r = 500 \/ status r = 503
  | ErrorBody _ _ | AnswerBody _ _ _ _ _ => False
  end.
Proof.
  cbv zeta. unfold search_documents.
  destruct data as [[[[[|ch q]|]]|]|e]; cbn; auto.
  destruct document_processor as [search|]; cbn; auto.
  destruct (search (ch :: q) 5 w) as [[found|e] w'] eqn:Hs; cbn; auto.
  split; [reflexivity|]. split; [discriminate|]. split; [reflexivity|].
  split.
  - apply Forall_forall. intros res Hin.
    apply in_map_iff in Hin. destruct Hin as (ds & <- & _).
    cbn [content search_result]. rewrite length_app, length_firstn.
    change (List.length ELLIPSIS) with 3. lia.
  - exists search, found. rewrite Hs. repeat split.
    + apply length_map.
    + rewrite map_map. reflexivity.
Qed.

(** X14. With a processor whose vector store is not loaded, [/search]
    answers a non-empty query with status 500 and the text of the
    [ValueError] that [search_with_scores] raises, and does not touch the
    store. *)
Theorem search_documents_store_not_loaded q w :
  q <> [] ->
  search_documents (Ok (Some (mkSearchPayload (Some q))))
    (Some (processor_search (DocumentProcessor.mk None))) w
  = (mkHttpResponse 500
       (ErrorOnly (ErrorOf (Exception DocumentProcessor.NOT_LOADED))), w).
Proof.
  intro Hq. unfold search_documents. cbn [payload_query].
  destruct q as [|ch q]; [congruence|]. reflexivity.
Qed.

Section WithoutStore.

(** The model answers the supervisor and the safety agent, and the verdict
    it gives the gate parses as an approval. *)
Hypothesis supervisor_answered :
  forall q w, exists text w1, llm_invoke (SupervisorPrompt q) w = (Ok text, w1).
Hypothesis gate_approves :
  forall q a n w, exists text w1,
    llm_invoke (SelfCheckPrompt q a n) w = (Ok text, w1)
    /\ parse_verdict str_lower text = true.
Hypothesis safety_answered :
  forall a w, exists text w1, llm_invoke (SafetyPrompt a) w = (Ok text, w1).

(** X15. With a processor whose vector store is not loaded, the retriever
    catches the [ValueError] of [search_with_scores] and returns the state
    with no document, without calling the model. When the model answers
    the supervisor and the safety agent and the gate approves, the six
    nodes run once, the draft is the fixed no-information message, and
    [process_query] succeeds with the safety agent's annotation, a blank
    line and the disclaimer as response, no citation and a document count
    of 0. *)
Theorem pipeline_without_vector_store q w :
  (forall st w0,
      retriever_agent llm_invoke
        (DocumentProcessor.search_with_scores similarity_search_with_score
           (DocumentProcessor.mk None)) st w0
      = (Ok (set_retrieved_docs [] st), w0))
  /\ exists st log w' annotation,
       graph_invoke llm_invoke
         (DocumentProcessor.search_with_scores similarity_search_with_score
            (DocumentProcessor.mk None)) str_lower q w
       = (Ok st, log, w')
       /\ map fst log
          = [Supervisor; Retriever; Answerer; SelfCheck; Safety; Finalizer]
       /\ answer st = NO_INFORMATION
       /\ process_query llm_invoke
            (DocumentProcessor.search_with_scores similarity_search_with_score
               (DocumentProcessor.mk None)) markdown_convert str_lower q w
          = (mkEnvelope
               (annotation ++ [10%N; 10%N] ++ SAFETY_DISCLAIMER)
               (Some (_convert_markdown_to_html markdown_convert
                        (annotation ++ [10%N; 10%N] ++ SAFETY_DISCLAIMER)))
               [] 0 true, w').
Proof.
  split; [reflexivity|].
  destruct (supervisor_answered q w) as (t1 & w1 & H1).
  set (st1 := if out_of_domain str_lower t1
              then set_final_response t1 (initial_state q)
              else set_messages [t1] (initial_state q)).
  assert (Hsup : supervisor_agent llm_invoke str_lower (initial_state q) w
                 = (Ok st1, w1)).
  { unfold supervisor_agent, bind, ret. cbn [query initial_state].
    rewrite H1. subst st1. destruct (out_of_domain str_lower t1); reflexivity. }
  set (st3 := set_citations [] (set_answer NO_INFORMATION
                                  (set_retrieved_docs [] st1))).
  destruct (gate_approves (query st3) (answer st3)
              (List.length (citations st3)) w1) as (t2 & w2 & H2 & Hv).
  set (st4 := set_messages (messages st3 ++ [t2])
                (set_self_check_passed true st3)).
  assert (Hgate : self_check_agent llm_invoke str_lower st3 w1
                  = (Ok st4, w2)).
  { unfold self_check_agent, bind, ret. rewrite H2, Hv. reflexivity. }
  destruct (safety_answered (answer st4) w2) as (t3 & w3 & H3).
  assert (Hsafe : safety_agent llm_invoke st4 w2
                  = (Ok (set_final_response
                           (t3 ++ [10%N; 10%N] ++ SAFETY_DISCLAIMER)
                           (set_safety_check_passed true st4)), w3)).
  { unfold safety_agent, bind, ret. rewrite H3. reflexivity. }
  assert (Hrun :
    graph_invoke llm_invoke
      (DocumentProcessor.search_with_scores similarity_search_with_score
         (DocumentProcessor.mk None)) str_lower q w
    = (Ok (set_final_response (t3 ++ [10%N; 10%N] ++ SAFETY_DISCLAIMER)
             (set_final_response (t3 ++ [10%N; 10%N] ++ SAFETY_DISCLAIMER)
                (set_safety_check_passed true st4))),
       [(Supervisor, 0); (Retriever, 0); (Answerer, 0); (SelfCheck, 0);
        (Safety, 0); (Finalizer, 0)], w3)).
  { unfold graph_invoke, recursion_limit.
    rewrite run_step. cbn [node_fn successor]. rewrite Hsup.
    rewrite run_step. cbn [node_fn successor].
    change (retriever_agent llm_invoke
              (DocumentProcessor.search_with_scores
                 similarity_search_with_score (DocumentProcessor.mk None))
              st1 w1)
      with (Ok (set_retrieved_docs [] st1), w1).
    cbv iota beta. rewrite run_step. cbn [node_fn successor].
    change (answerer_agent llm_invoke (set_retrieved_docs [] st1) w1)
      with (Ok st3, w1).
    cbv iota beta. rewrite run_step. cbn [node_fn]. rewrite Hgate.
    change (successor SelfCheck st4) with (Goto Safety, st4).
    cbv iota beta. rewrite run_step. cbn [node_fn successor]. rewrite Hsafe.
    rewrite run_step. cbn [node_fn successor].
    subst st4 st3 st1.
    destruct (out_of_domain str_lower t1); reflexivity. }
  do 3 eexists. exists t3. split; [exact Hrun|].
  split; [reflexivity|].
  split; [subst st4 st3; reflexivity|].
  unfold process_query. rewrite Hrun. reflexivity.
Qed.

End WithoutStore.

End SearchFacts.

(** ** Concrete instances *)

Lemma completed_run_was_approved_witness :
  exists st log w',
    graph_invoke (Runs.judge Runs.APPROVED) (Stub.search [Stub.doc_ipcc])
      latin1_lower Stub.a_query 0 = (Ok st, log, w')
    /\ self_check_passed st = true
    /\ safety_check_passed st = true
    /\ last (map fst log) Supervisor = Finalizer.
Proof.
  do 3 eexists. split; [vm_compute; reflexivity|].
  eapply (completed_run_was_approved (Runs.judge Runs.APPROVED)
            (Stub.search [Stub.doc_ipcc]) latin1_lower Stub.a_query 0).
  vm_compute. reflexivity.
Defined.

Lemma approved_response_layout_witness :
  exists st log w',
    graph_invoke (Runs.judge Runs.APPROVED)
      (Stub.search [Stub.doc_ipcc; Stub.doc_nasa]) latin1_lower
      Stub.a_query 0 = (Ok st, log, w')
    /\ self_check_passed st = true
    /\ exists annotation,
         response
           (fst (process_query (Runs.judge Runs.APPROVED)
                   (Stub.search [Stub.doc_ipcc; Stub.doc_nasa])
                   Stub.markdown latin1_lower Stub.a_query 0))
         = annotation ++ [10%N; 10%N] ++ SAFETY_DISCLAIMER
           ++ sources_block (cite_all 0 (retrieved_docs st))
         /\ env_citations
              (fst (process_query (Runs.judge Runs.APPROVED)
                      (Stub.search [Stub.doc_ipcc; Stub.doc_nasa])
                      Stub.markdown latin1_lower Stub.a_query 0))
            = cite_all 0 (retrieved_docs st).
Proof.
  do 3 eexists. split; [vm_compute; reflexivity|].
  split; [reflexivity|].
  eapply (approved_response_layout (Runs.judge Runs.APPROVED)
            (Stub.search [Stub.doc_ipcc; Stub.doc_nasa]) Stub.markdown
            latin1_lower Stub.a_query 0).
  - vm_compute. reflexivity.
  - reflexivity.
Defined.

(** A search that keeps to the number of documents it is asked for. *)
Definition search_up_to (docs : list (Document * score)) (q : pystr)
    (k : nat) (w : Stub.World)
    : result (list (Document * score)) * Stub.World :=
  (Ok (firstn k docs), S w).

Lemma at_most_five_citations_witness :
  (forall q k w,
      match fst (search_up_to (repeat Stub.doc_ipcc 7) q k w) with
      | Ok found => List.length found <= k
      | Raise _ => True
      end)
  /\ retrieved_docs_count
       (fst (process_query (Runs.judge Runs.APPROVED)
               (search_up_to (repeat Stub.doc_ipcc 7)) Stub.markdown
               latin1_lower Stub.a_query 0)) <= 5.
Proof.
  split; [intros q k w; apply firstn_le_length|].
  exact (proj1
           (@at_most_five_citations _ (Runs.judge Runs.APPROVED)
              (search_up_to (repeat Stub.doc_ipcc 7)) Stub.markdown
              latin1_lower (fun q k w => firstn_le_length k _)
              Stub.a_query 0)).
Defined.

Lemma query_succeeds_despite_retriever_witness :
  success
    (fst (process_query Runs.deaf_to_retriever (Stub.search [Stub.doc_ipcc])
            Stub.markdown latin1_lower Stub.a_query 0)) = true.
Proof.
  refine (proj1
            (@query_succeeds_despite_retriever _ Runs.deaf_to_retriever
               (Stub.search [Stub.doc_ipcc]) Stub.markdown latin1_lower
               _ _ _ _ Stub.a_query 0));
    intros; do 2 eexists; try split; reflexivity.
Defined.

(** A processor with no vector store. *)
Definition no_similarity_search (store : unit) (q : pystr) (k : nat)
    (w : Stub.World) : result (list (Document * score)) * Stub.World :=
  (Ok [], S w).

Lemma pipeline_without_vector_store_witness :
  exists st log w' annotation,
    graph_invoke (Runs.judge Runs.APPROVED)
      (DocumentProcessor.search_with_scores no_similarity_search
         (DocumentProcessor.mk None)) latin1_lower Stub.a_query 0
    = (Ok st, log, w')
    /\ map fst log
       = [Supervisor; Retriever; Answerer; SelfCheck; Safety; Finalizer]
    /\ answer st = NO_INFORMATION
    /\ process_query (Runs.judge Runs.APPROVED)
         (DocumentProcessor.search_with_scores no_similarity_search
            (DocumentProcessor.mk None)) Stub.markdown latin1_lower
         Stub.a_query 0
       = (mkEnvelope
            (annotation ++ [10%N; 10%N] ++ SAFETY_DISCLAIMER)
            (Some (_convert_markdown_to_html Stub.markdown
                     (annotation ++ [10%N; 10%N] ++ SAFETY_DISCLAIMER)))
            [] 0 true, w').
Proof.
  refine (proj2
            (@pipeline_without_vector_store _ (Runs.judge Runs.APPROVED)
               Stub.markdown latin1_lower unit no_similarity_search
               _ _ _ Stub.a_query 0));
    intros; do 2 eexists; try split; reflexivity.
Defined.

(** A conversation: a question, an answer, a second question, and a
    system note after it. *)
Definition first_question : ChatMessage :=
  mkChatMessage (Some USER) (Some Stub.off_topic).
Definition an_answer : ChatMessage :=
  mkChatMessage (Some (py "assistant")) (Some Stub.annotated).
Definition second_question : ChatMessage :=
  mkChatMessage (Some USER) (Some Stub.a_query).
Definition a_note : ChatMessage :=
  mkChatMessage (Some (py "system")) None.
Definition blank_question : ChatMessage :=
  mkChatMessage (Some USER) (Some []).

Lemma get_response_answers_last_user_message_witness :
  get_response (Runs.judge Runs.APPROVED) (Stub.search [Stub.doc_ipcc])
    Stub.markdown latin1_lower
    (Ok (Some (mkChatPayload
                 (Some ([first_question; an_answer] ++ second_question
                          :: [a_note])))))
    true 0
  = (reply (fst (process_query (Runs.judge Runs.APPROVED)
                   (Stub.search [Stub.doc_ipcc]) Stub.markdown latin1_lower
                   Stub.a_query 0)),
     snd (process_query (Runs.judge Runs.APPROVED)
            (Stub.search [Stub.doc_ipcc]) Stub.markdown latin1_lower
            Stub.a_query 0)).
Proof.
  apply get_response_answers_last_user_message.
  - reflexivity.
  - reflexivity.
  - discriminate.
  - repeat constructor.
Defined.

Lemma get_response_rejects_empty_last_message_witness :
  get_response (Runs.judge Runs.APPROVED) (Stub.search [Stub.doc_ipcc])
    Stub.markdown latin1_lower
    (Ok (Some (mkChatPayload
                 (Some ([first_question; an_answer] ++ blank_question
                          :: [a_note])))))
    true 0
  = (mkHttpResponse 400
       (ErrorBody NO_QUESTION (ErrorLiteral (py "No user message found"))), 0).
Proof.
  apply get_response_rejects_empty_last_message.
  - reflexivity.
  - right. reflexivity.
  - repeat constructor.
Defined.

Lemma search_documents_store_not_loaded_witness :
  search_documents (Ok (Some (mkSearchPayload (Some Stub.a_query))))
    (Some (DocumentProcessor.search_with_scores
             (fun (store : unit) q k (w : Stub.World) =>
                Stub.search [Stub.doc_ipcc] q k w)
             (DocumentProcessor.mk None)))
    0
  = (mkHttpResponse 500
       (ErrorOnly (ErrorOf (Exception DocumentProcessor.NOT_LOADED))), 0).
Proof.
  apply search_documents_store_not_loaded. discriminate.
Defined.

(** ** Runs of the handlers *)

Example get_response_run :
  fst (get_response (Runs.judge Runs.APPROVED)
         (Stub.search (repeat Stub.doc_ipcc 5)) Stub.markdown latin1_lower
         (Ok (Some (mkChatPayload (Some [second_question])))) true 0)
  = mkHttpResponse 200
      (AnswerBody
         (Stub.annotated ++ [10%N; 10%N] ++ SAFETY_DISCLAIMER
          ++ sources_block
               (cite_all 0 (map to_retrieved (repeat Stub.doc_ipcc 5))))
         (Stub.annotated ++ [10%N; 10%N] ++ SAFETY_DISCLAIMER
          ++ sources_block
               (cite_all 0 (map to_retrieved (repeat Stub.doc_ipcc 5))))
         5 5
         (cite_all 0 (map to_retrieved (repeat Stub.doc_ipcc 3)))).
Proof. vm_compute. reflexivity. Qed.

Example get_response_without_body :
  fst (get_response (Runs.judge Runs.APPROVED) (Stub.search [])
         Stub.markdown latin1_lower (Ok None) false 0)
  = mkHttpResponse 400
      (ErrorBody INVALID_FORMAT (ErrorLiteral (py "Invalid data format"))).
Proof. reflexivity. Qed.

Example search_without_body :
  fst (search_documents (World := Stub.World) (Ok None) None 0)
  = mkHttpResponse 500 (ErrorOnly (ErrorOf NONE_HAS_NO_GET)).
Proof. reflexivity. Qed.

(** * The cost of a query *)

(** The collaborators with a meter: the world is paired with the number
    of calls made to the model and to the search. *)
Definition metered_llm {World : Type}
    (llm_invoke : Prompt -> World -> result pystr * World)
    (p : Prompt) (wm : World * (nat * nat))
    : result pystr * (World * (nat * nat)) :=
  let '(r, w') := llm_invoke p (fst wm) in
  (r, (w', (S (fst (snd wm)), snd (snd wm)))).

Definition metered_search {World : Type}
    (search_with_scores :
       pystr -> nat -> World -> result (list (Document * score)) * World)
    (q : pystr) (k : nat) (wm : World * (nat * nat))
    : result (list (Document * score)) * (World * (nat * nat)) :=
  let '(r, w') := search_with_scores q k (fst wm) in
  (r, (w', (fst (snd wm), S (snd (snd wm))))).





Section Cost.

Variable World : Type.
Variable llm_invoke : Prompt -> World -> result pystr * World.
Variable search_with_scores :
  pystr -> nat -> World -> result (list (Document * score)) * World.
Variable markdown_convert : pystr -> result pystr.
Variable str_lower : pystr -> pystr.

Local Abbreviation node :=
  (node_fn (metered_llm llm_invoke) (metered_search search_with_scores)
     str_lower).
Local Abbreviation exec :=
  (run (metered_llm llm_invoke) (metered_search search_with_scores)
     str_lower).




(** X17. The Markdown renderer cannot fail a query nor change its
    answer: with any two renderers [process_query] returns the same
    response, citations, document count and success flag, and leaves the
    same world. Only [response_html] depends on the renderer; it is its
    output on the response, or the response itself when it raises. *)
Theorem renderer_cannot_fail_query
    (other_convert : pystr -> result pystr) q (w : World) :
  let '(env, w1) :=
    process_query llm_invoke search_with_scores markdown_convert
      str_lower q w in
  let '(env', w2) :=
    process_query llm_invoke search_with_scores other_convert
      str_lower q w in
  response env = response env'
  /\ env_citations env = env_citations env'
  /\ retrieved_docs_count env = retrieved_docs_count env'
  /\ success env = success env'
  /\ w1 = w2
  /\ response_html env
     = if success env
       then Some (match markdown_convert (response env) with
                  | Ok html => html
                  | Raise _ => response env
                  end)
       else None.
Proof.
  unfold process_query.
  destruct (graph_invoke llm_invoke search_with_scores str_lower q w)
    as [[[st|e] log] w']; cbn; repeat split.
Qed.

End Cost.

Example metered_query :
  snd (snd (process_query (metered_llm (Runs.judge Runs.REJECTED))
              (metered_search (Stub.search [Stub.doc_ipcc])) Stub.markdown
              latin1_lower Stub.a_query (0, (0, 0))))
  = (25, 8).
Proof. vm_compute. reflexivity. Qed.
